(** * Momentum back-test of marco_momentum.py

    A shallow embedding of the computational core of
    [src/marco_momentum.py]: the forward fill, the 13612W momentum score
    ([calculate_momentum], applied through a 252-row rolling window), the
    display of the first complete row of scores, the derivation of the
    re-balancing dates, the back-test loop and the figures reported after
    it.  [script] chains them in the order the script runs them.
    Retrieval of the prices and the rendering are left out; the price
    table is an input.

    Numbers.  The script computes on binary64 floats.  The main
    development takes a number to be an exact rational, or one of the
    three special values that float division produces ([+inf], [-inf],
    [NaN]): the propagation of [NaN] and of the infinities is modelled,
    rounding and overflow are not, and what is proved there of the size
    or the sign of a computed number is proved of exact arithmetic.
    Module [Binary64] is the same program on the binary64 numbers of the
    kernel; it is where a statement is tested against rounding and
    overflow, and where the statements of the specification that fail
    because of them are refuted.

    Tables.  A frame is its column labels and its rows in index order.
    The index of the price table is ascending without duplicates, as the
    price source delivers it; label slices are read on that footing. *)

From Stdlib Require Import String List Arith Bool Lia ZArith QArith Sorted Lqa
  Permutation.
From Stdlib Require Floats Uint63.
Import ListNotations.

Close Scope Q_scope.

(* ================================================================== *)
(** ** Numbers *)

Module Num.
Local Open Scope Q_scope.

Inductive num : Type :=
| Fin (q : Q)        (* a finite value *)
| Inf (pos : bool)   (* [Inf true] is +inf, [Inf false] is -inf *)
| NaN.

Definition Qlt_bool (a b : Q) : bool := negb (Qle_bool b a).
Definition Qzero (a : Q) : bool := Qeq_bool a 0.

Definition is_nan (x : num) : bool :=
  match x with NaN => true | _ => false end.

Definition notna (x : num) : bool := negb (is_nan x).

Definition is_finite (x : num) : bool :=
  match x with Fin _ => true | _ => false end.

Definition neg (x : num) : num :=
  match x with
  | Fin a => Fin (- a)
  | Inf s => Inf (negb s)
  | NaN => NaN
  end.

Definition add (x y : num) : num :=
  match x, y with
  | NaN, _ | _, NaN => NaN
  | Fin a, Fin b => Fin (a + b)
  | Inf s, Inf t => if Bool.eqb s t then Inf s else NaN
  | Inf s, Fin _ | Fin _, Inf s => Inf s
  end.

Definition sub (x y : num) : num := add x (neg y).

Definition mul (x y : num) : num :=
  match x, y with
  | NaN, _ | _, NaN => NaN
  | Fin a, Fin b => Fin (a * b)
  | Inf s, Inf t => Inf (Bool.eqb s t)
  | Inf s, Fin b | Fin b, Inf s =>
      if Qzero b then NaN else Inf (if Qlt_bool 0 b then s else negb s)
  end.

(** Float division: a finite non-zero value over zero is an infinity,
    zero over zero is [NaN]; nothing raises. *)
Definition div (x y : num) : num :=
  match x, y with
  | NaN, _ | _, NaN => NaN
  | Fin a, Fin b =>
      if Qzero b then (if Qzero a then NaN else Inf (Qlt_bool 0 a))
      else Fin (a / b)
  | Fin _, Inf _ => Fin 0
  | Inf s, Fin b => Inf (if Qle_bool 0 b then s else negb s)
  | Inf _, Inf _ => NaN
  end.

(** [gtb x y] is the float comparison [x > y]; false as soon as one side
    is [NaN]. *)
Definition gtb (x y : num) : bool :=
  match x, y with
  | NaN, _ | _, NaN => false
  | Fin a, Fin b => Qlt_bool b a
  | Inf s, Inf t => s && negb t
  | Inf s, Fin _ => s
  | Fin _, Inf t => negb t
  end.

Definition of_nat (n : nat) : num := Fin (inject_Z (Z.of_nat n)).


End Num.
Import Num.

Declare Scope num_scope.
Delimit Scope num_scope with num.
Bind Scope num_scope with num.
Infix "+" := add : num_scope.
Infix "-" := sub : num_scope.
Infix "*" := mul : num_scope.
Infix "/" := div : num_scope.

(* ================================================================== *)
(** ** Dates *)

(** The index of the price table holds midnight time stamps (line 70
    makes them time-zone naive); a [Timestamp] is its calendar day. *)
Record Timestamp : Type := mkdate { year : nat; month : nat; day : nat }.

Definition date_eqb (a b : Timestamp) : bool :=
  (year a =? year b) && (month a =? month b) && (day a =? day b).

Definition date_ltb (a b : Timestamp) : bool :=
  (year a <? year b)
  || ((year a =? year b)
      && ((month a <? month b)
          || ((month a =? month b) && (day a <? day b)))).

Definition date_leb (a b : Timestamp) : bool := negb (date_ltb b a).

Definition leap (y : nat) : bool :=
  (y mod 4 =? 0) && (negb (y mod 100 =? 0) || (y mod 400 =? 0)).

Definition days_in_month (y m : nat) : nat :=
  match m with
  | 2 => if leap y then 29 else 28
  | 4 | 6 | 9 | 11 => 30
  | _ => 31
  end.

(** Months counted from year 0: the key of the bins of [resample('M')]. *)
Definition month_index (d : Timestamp) : nat := year d * 12 + (month d - 1).

(** The label of a monthly bin: the last calendar day of the month. *)
Definition month_end (k : nat) : Timestamp :=
  mkdate (k / 12) (k mod 12 + 1) (days_in_month (k / 12) (k mod 12 + 1)).

(** [date - pd.offsets.MonthBegin(1)]: back to the first day of the
    month, or of the month before when the date is itself a first. *)
Definition minus_MonthBegin (d : Timestamp) : Timestamp :=
  if day d =? 1
  then (if month d =? 1 then mkdate (year d - 1) 12 1
        else mkdate (year d) (month d - 1) 1)
  else mkdate (year d) (month d) 1.

(* ================================================================== *)
(** ** Series and data frames *)

Definition asset := string.

(** A row of a frame read as a Series: labels with their values. *)
Definition Series (K : Type) := list (K * num).

(** A frame indexed by date: the column labels, and the rows in index
    order.  Every row has one value per column. *)
Record DataFrame : Type := mkDF {
  columns : list asset;
  rows : list (Timestamp * list num)
}.

Definition index (df : DataFrame) : list Timestamp := map fst (rows df).

Definition well_formed (df : DataFrame) : Prop :=
  Forall (fun r => length (snd r) = length (columns df)) (rows df).

Definition mem_date (d : Timestamp) (l : list Timestamp) : bool :=
  existsb (date_eqb d) l.

(** [df.loc[d]] for a date of the index (first match). *)
Definition loc (df : DataFrame) (d : Timestamp) : option (Series asset) :=
  match find (fun r => date_eqb (fst r) d) (rows df) with
  | Some r => Some (combine (columns df) (snd r))
  | None => None
  end.

(** [s.isnull().all()] *)
Definition isnull_all {K} (s : Series K) : bool :=
  forallb (fun kv => is_nan (snd kv)) s.

(** [s.dropna()] *)
Definition dropna {K} (s : Series K) : Series K :=
  filter (fun kv => notna (snd kv)) s.

(** [s.nlargest(n)]: the [n] largest values in descending order, the
    first occurrence winning a tie ([keep='first']). *)
Fixpoint insert_desc {K} (x : K * num) (l : Series K) : Series K :=
  match l with
  | [] => [x]
  | y :: l' => if gtb (snd x) (snd y) then x :: l else y :: insert_desc x l'
  end.

Definition sort_desc {K} (s : Series K) : Series K :=
  fold_left (fun acc x => insert_desc x acc) s [].

Definition nlargest {K} (n : nat) (s : Series K) : Series K :=
  firstn n (sort_desc (dropna s)).

(** [df.dropna()]: the rows that hold no [NaN]. *)
Definition dropna_rows {I} (rs : list (I * list num)) : list (I * list num) :=
  filter (fun r => forallb notna (snd r)) rs.

(** [df.fillna(method='ffill')] on the rows of a frame: a [NaN] takes the
    value of the same column one row up. *)
Fixpoint pad_cells (prev cur : list num) : list num :=
  match prev, cur with
  | p :: prev', c :: cur' => (if is_nan c then p else c) :: pad_cells prev' cur'
  | _, _ => cur
  end.

Fixpoint ffill_from {I} (prev : list num) (rs : list (I * list num))
  : list (I * list num) :=
  match rs with
  | [] => []
  | (i, r) :: rs' => let r' := pad_cells prev r in (i, r') :: ffill_from r' rs'
  end.

Definition ffill {I} (rs : list (I * list num)) : list (I * list num) :=
  match rs with
  | [] => []
  | (i, r) :: rs' => (i, r) :: ffill_from r rs'
  end.

(** Line 67. *)
Definition fillna_ffill (df : DataFrame) : DataFrame :=
  mkDF (columns df) (ffill (rows df)).

(* ================================================================== *)
(** ** MomentumCalculator (lines 73-85) *)

(** [prices.iloc[-k]], for [1 <= k <= len(prices)]. *)
Definition iloc_neg (prices : list num) (k : nat) : num :=
  nth (length prices - k) prices NaN.

Definition calculate_momentum (prices : list num) : num :=
  if length prices <? 252 then NaN
  else
    let p0 := iloc_neg prices 1 in
    let p1 := iloc_neg prices 21 in
    let p3 := iloc_neg prices 63 in
    let p6 := iloc_neg prices 126 in
    let p12 := iloc_neg prices 252 in
    (Fin 12 * (p0 / p1 - Fin 1)) + (Fin 4 * (p0 / p3 - Fin 1))
    + (Fin 2 * (p0 / p6 - Fin 1)) + (p0 / p12 - Fin 1).

Definition count_valid (l : list num) : nat := length (filter notna l).

(** The rows a window of [w] rows ending at position [i] covers. *)
Definition window_at (w : nat) (col : list num) (i : nat) : list num :=
  skipn (S i - w) (firstn (S i) col).

(** The values a rolling window works on: pandas' [_prep_values] turns
    the infinities into [NaN] first. *)
Definition prep_values (col : list num) : list num :=
  map (fun x => match x with Inf _ => NaN | _ => x end) col.

(** [col.rolling(window=w).apply(f)]: [min_periods] defaults to [w], so
    a window with fewer than [w] non-NaN observations gives [NaN] and [f]
    is not called on it. *)
Definition rolling_apply (w : nat) (f : list num -> num) (col : list num)
  : list num :=
  let values := prep_values col in
  map (fun i => let win := window_at w values i in
                if count_valid win <? w then NaN else f win)
      (seq 0 (length values)).

Definition col_values (df : DataFrame) (j : nat) : list num :=
  map (fun r => nth j (snd r) NaN) (rows df).

Definition rolling_apply_df (w : nat) (f : list num -> num) (df : DataFrame)
  : DataFrame :=
  let cols := map (fun j => rolling_apply w f (col_values df j))
                  (seq 0 (length (columns df))) in
  mkDF (columns df)
       (map (fun ir => (fst (snd ir), map (fun c => nth (fst ir) c NaN) cols))
            (combine (seq 0 (length (rows df))) (rows df))).

(** Line 85. *)
Definition momentum (data : DataFrame) : DataFrame :=
  rolling_apply_df 252 calculate_momentum data.

(* ================================================================== *)
(** ** RebalanceScheduler (lines 98-104) *)

(** [data.resample('M').last().index]: one label per calendar month from
    the month of the first row to the month of the last row, each the
    last calendar day of its month.  The index is in ascending order. *)
Definition resample_M_index (idx : list Timestamp) : list Timestamp :=
  match idx with
  | [] => []
  | d0 :: _ =>
      let a := month_index d0 in
      let b := month_index (last idx d0) in
      map month_end (seq a (S b - a))
  end.

(** [momentum.dropna().index[0] if not momentum.dropna().empty else None] *)
Definition momentum_start_date (momentum : DataFrame) : option Timestamp :=
  match dropna_rows (rows momentum) with
  | [] => None
  | r :: _ => Some (fst r)
  end.

Definition rebalancing_dates (data momentum : DataFrame) : list Timestamp :=
  let rebalancing_dates := resample_M_index (index data) in
  match momentum_start_date momentum with
  | Some start => filter (fun d => date_ltb start d) rebalancing_dates
  | None => rebalancing_dates
  end.

(* ================================================================== *)
(** ** PortfolioSimulator (lines 92-96 and 110-132) *)

Record State : Type := mkState {
  portfolio_value : num;
  portfolio_values : list num;
  portfolio_dates : list Timestamp;
  current_portfolio : option (list asset)
}.

(** Lines 93-96. *)
Definition init (initial_capital : num) : State :=
  mkState initial_capital [initial_capital] [] None.

(** The history the chart shows (line 138): [portfolio_dates] against
    [portfolio_values[1:]]. *)
Definition history (st : State) : list (Timestamp * num) :=
  combine (portfolio_dates st) (tl (portfolio_values st)).

Definition get (row : Series asset) (a : asset) : num :=
  match find (fun kv => String.eqb (fst kv) a) row with
  | Some kv => snd kv
  | None => NaN
  end.

Fixpoint zip_with (f : num -> num -> num) (xs ys : list num) : list num :=
  match xs, ys with
  | x :: xs', y :: ys' => f x y :: zip_with f xs' ys'
  | _, _ => []
  end.

(** [df.pct_change()]: [fill_method='pad'] is the default, then each row
    over the row before, minus one; the first row is all [NaN]. *)
Fixpoint pct_from {I} (prev : list num) (rs : list (I * list num))
  : list (I * list num) :=
  match rs with
  | [] => []
  | (i, r) :: rs' =>
      (i, zip_with (fun p c => (c / p - Fin 1)%num) prev r) :: pct_from r rs'
  end.

Definition pct_change {I} (rs : list (I * list num)) : list (I * list num) :=
  match ffill rs with
  | [] => []
  | (i, r) :: rs' => (i, map (fun _ => NaN) r) :: pct_from r rs'
  end.

(** Reductions skip [NaN] ([skipna=True]). *)
Definition sum (l : list num) : num := fold_left add (filter notna l) (Fin 0).
Definition mean (l : list num) : num := sum l / of_nat (count_valid l).
Definition prod (l : list num) : num := fold_left mul (filter notna l) (Fin 1).

Section Backtest.

Variables (data momentum : DataFrame) (top_n_assets : nat).

(** [momentum.loc[date].dropna().nlargest(top_n_assets).index] *)
Definition top_assets_of (row : Series asset) : list asset :=
  map fst (nlargest top_n_assets (dropna row)).

(** [data.loc[date-pd.offsets.MonthBegin(1):date][top_assets]] *)
Definition month_data (date : Timestamp) (top_assets : list asset)
  : list (Timestamp * list num) :=
  map (fun r => (fst r, map (get (combine (columns data) (snd r))) top_assets))
      (filter (fun r => date_leb (minus_MonthBegin date) (fst r)
                        && date_leb (fst r) date)
              (rows data)).

(** [month_data.pct_change().dropna().mean(axis=1)] *)
Definition monthly_returns (date : Timestamp) (top_assets : list asset)
  : Series Timestamp :=
  map (fun r => (fst r, mean (snd r)))
      (dropna_rows (pct_change (month_data date top_assets))).

(** [(1 + monthly_returns).prod() - 1] *)
Definition cumulative_return (monthly_returns : Series Timestamp) : num :=
  prod (map (fun kv => (Fin 1 + snd kv)%num) monthly_returns) - Fin 1.

(** The body of the loop up to the update: [None] is a [continue], and
    [Some (top_assets, cumulative_return)] reaches line 126. *)
Definition rebalance (date : Timestamp) : option (list asset * num) :=
  match loc momentum date with
  | None => None
  | Some row =>
      if isnull_all row then None
      else
        let top_assets := top_assets_of row in
        if length top_assets <? top_n_assets then None
        else
          match monthly_returns date top_assets with
          | [] => None
          | mr => Some (top_assets, cumulative_return mr)
          end
  end.

(** Lines 127-132. *)
Definition update (st : State) (date : Timestamp) (top_assets : list asset)
  (cumulative_return : num) : State :=
  let portfolio_value := (portfolio_value st * (Fin 1 + cumulative_return))%num in
  mkState portfolio_value
          (portfolio_values st ++ [portfolio_value])
          (portfolio_dates st ++ [date])
          (Some top_assets).

Definition step (st : State) (date : Timestamp) : State :=
  match rebalance date with
  | None => st
  | Some (top_assets, r) => update st date top_assets r
  end.

Definition run (st : State) (dates : list Timestamp) : State :=
  fold_left step dates st.

(** The period returns of the dates that reach the update, in order. *)
Fixpoint period_returns (dates : list Timestamp) : list num :=
  match dates with
  | [] => []
  | d :: ds =>
      match rebalance d with
      | None => period_returns ds
      | Some (_, r) => r :: period_returns ds
      end
  end.

End Backtest.

Definition backtest (data momentum : DataFrame) (top_n_assets : nat)
  (initial_capital : num) (dates : list Timestamp) : State :=
  run data momentum top_n_assets (init initial_capital) dates.

(* ================================================================== *)
(** ** ReportBuilder (line 150) *)

Definition portfolio_mtd_return (st : State) : num :=
  let pv := portfolio_values st in
  if 1 <? length pv
  then (iloc_neg pv 1 / iloc_neg pv 2 - Fin 1) * Fin 100
  else Fin 0.

(* ================================================================== *)
(** ** Notions of the specification *)

Definition cell (df : DataFrame) (i j : nat) : num :=
  nth j (snd (nth i (rows df) (mkdate 0 0 0, []))) NaN.

(** The number of consecutive observations of a column that end at row
    [i]: the length of the run of prices up to and including it, a
    missing or infinite price ending the run. *)
Fixpoint run_length (l : list num) : nat :=
  match l with
  | x :: l' => if notna x then S (run_length l') else 0
  | [] => 0
  end.

Definition trailing_observations (col : list num) (i : nat) : nat :=
  run_length (rev (firstn (S i) (prep_values col))).

(** The 13612W blend of four price ratios. *)
Definition blend (p0 p1 p3 p6 p12 : num) : num :=
  (Fin 12 * (p0 / p1 - Fin 1)) + (Fin 4 * (p0 / p3 - Fin 1))
  + (Fin 2 * (p0 / p6 - Fin 1)) + (p0 / p12 - Fin 1).

(** The score as section 4.1 words it: prices 21, 63, 126 and 252 rows
    before the row of [p0]. *)
Definition spec_score (data : DataFrame) (i j : nat) : num :=
  blend (cell data i j) (cell data (i - 21) j) (cell data (i - 63) j)
        (cell data (i - 126) j) (cell data (i - 252) j).

(** The first date whose row satisfies [p]. *)
Definition first_date_where (p : list num -> bool) (m : DataFrame)
  : option Timestamp :=
  option_map fst (find (fun r => p (snd r)) (rows m)).

Definition any_defined (row : list num) : bool := existsb notna row.
Definition all_defined (row : list num) : bool := forallb notna row.

(** No asset has a defined score on any date. *)
Definition entirely_undefined (m : DataFrame) : bool :=
  forallb (fun r => forallb is_nan (snd r)) (rows m).

(** The month-to-date figure as section 4.4 words it, over the history
    of (date, value) pairs. *)
Definition spec_mtd_return (h : list (Timestamp * num)) : num :=
  match rev h with
  | (_, v1) :: (_, v2) :: _ => v1 / v2 - Fin 1
  | _ => Fin 0
  end.

(** The number of assets with a defined score at a date. *)
Definition defined_scores (momentum : DataFrame) (date : Timestamp) : nat :=
  match loc momentum date with
  | Some row => length (dropna row)
  | None => 0
  end.

(** Replaying period returns from a starting value. *)
Fixpoint compound (v : num) (rs : list num) : list num :=
  v :: match rs with
       | [] => []
       | r :: rs' => compound (v * (Fin 1 + r)) rs'
       end.

Definition num_eqb (x y : num) : bool :=
  match x, y with
  | Fin a, Fin b => Qeq_bool a b
  | Inf s, Inf t => Bool.eqb s t
  | NaN, NaN => true
  | _, _ => false
  end.

Definition date_lt (a b : Timestamp) : Prop := date_ltb a b = true.

(** Strictly ascending sequences of dates. *)
Definition ascending (l : list Timestamp) : Prop := StronglySorted date_lt l.

(** The wording of section 4.2: a month-end date is dropped exactly when
    it lies strictly before the first date with at least one defined
    score. *)
Definition scheduler_spec (data momentum : DataFrame) : Prop :=
  forall d, In d (resample_M_index (index data)) ->
    (~ In d (rebalancing_dates data momentum) <->
     exists s, first_date_where any_defined momentum = Some s /\ date_lt d s).

(** The wording of section 4.4. *)
Definition mtd_spec (st : State) : Prop :=
  portfolio_mtd_return st = spec_mtd_return (history st).

(** The wording of section 4.1, with the prices 21, 63, 126 and 252 rows
    before the row of [p0]. *)
Definition score_spec (data : DataFrame) (i j : nat) : Prop :=
  i < length (rows data) -> j < length (columns data) ->
  252 <= trailing_observations (col_values data j) i ->
  cell (momentum data) i j = spec_score data i j.

Definition positiveb (x : num) : bool :=
  match x with Fin q => Qlt_bool 0 q | _ => false end.

(** A cell of the price table: a missing observation or a positive
    price. *)
Definition price_ok (x : num) : bool := is_nan x || positiveb x.

Definition positive_prices (data : DataFrame) : bool :=
  forallb (fun r => forallb price_ok (snd r)) (rows data).



(* ================================================================== *)
(** ** The displays around the back-test (lines 90, 145, 156-162, 176) *)

(** [s.sort_values(ascending=False)]: descending, [NaN] last. *)
Definition sort_values_desc {K} (s : Series K) : Series K :=
  sort_desc (dropna s) ++ filter (fun kv => is_nan (snd kv)) s.

(** Line 90: [momentum.dropna().iloc[0].sort_values(ascending=False)].
    [None] is the [IndexError] that [iloc[0]] raises on an empty frame. *)
Definition initial_momentum_values (momentum : DataFrame)
  : option (Series asset) :=
  match dropna_rows (rows momentum) with
  | [] => None
  | r :: _ => Some (sort_values_desc (combine (columns momentum) (snd r)))
  end.

(** Lines 145 and 176: [momentum.iloc[-1].dropna().nlargest(top_n_assets)].
    [None] is the [IndexError] of [iloc[-1]] on an empty frame. *)
Definition last_momentum (momentum : DataFrame) (top_n_assets : nat)
  : option (Series asset) :=
  match rev (rows momentum) with
  | [] => None
  | r :: _ =>
      Some (nlargest top_n_assets (dropna (combine (columns momentum) (snd r))))
  end.

(** [Series.pct_change()] on the values of one column, padded first as
    for a frame. *)
Fixpoint ffill_series_from (prev : num) (l : list num) : list num :=
  match l with
  | [] => []
  | x :: l' =>
      let x' := if is_nan x then prev else x in
      x' :: ffill_series_from x' l'
  end.

Definition ffill_series (l : list num) : list num :=
  match l with
  | [] => []
  | x :: l' => x :: ffill_series_from x l'
  end.

Fixpoint pct_series_from (prev : num) (l : list num) : list num :=
  match l with
  | [] => []
  | x :: l' => (x / prev - Fin 1)%num :: pct_series_from x l'
  end.

Definition pct_change_series (l : list num) : list num :=
  match ffill_series l with
  | [] => []
  | x :: l' => NaN :: pct_series_from x l'
  end.

(** Line 161: [(asset_data.pct_change().dropna() + 1).prod() - 1] *)
Definition asset_mtd_return (asset_data : list num) : num :=
  prod (map (fun r => (r + Fin 1)%num)
            (filter notna (pct_change_series asset_data)))
  - Fin 1.

(** Line 149: the first day of the month of [end_date]. *)
Definition current_month_start (end_date : Timestamp) : Timestamp :=
  mkdate (year end_date) (month end_date) 1.

(** Line 159: [data.loc[current_month_start:end_date, asset]], the values
    of a column of the table. *)
Definition asset_data (data : DataFrame) (end_date : Timestamp) (a : asset)
  : list num :=
  map (fun r => get (combine (columns data) (snd r)) a)
      (filter (fun r => date_leb (current_month_start end_date) (fst r)
                        && date_leb (fst r) end_date)
              (rows data)).

(** [d[k] = v] on a dict kept in insertion order. *)
Fixpoint dict_set (d : list (asset * num)) (k : asset) (v : num)
  : list (asset * num) :=
  match d with
  | [] => [(k, v)]
  | (k', v') :: d' =>
      if String.eqb k' k then (k, v) :: d' else (k', v') :: dict_set d' k v
  end.

(** Lines 157-162, for a portfolio that is not [None]. *)
Definition mtd_asset_returns (data : DataFrame) (end_date : Timestamp)
  (current_portfolio : list asset) : list (asset * num) :=
  fold_left
    (fun mtd a =>
       match asset_data data end_date a with
       | [] => mtd
       | ad => dict_set mtd a (asset_mtd_return ad * Fin 100)%num
       end)
    current_portfolio [].

(** No later value of a series exceeds an earlier one. *)
Definition descending {K} (s : Series K) : Prop :=
  StronglySorted (fun a b => gtb (snd b) (snd a) = false) s.

(** The last calendar day of a month of the year. *)
Definition is_month_end (d : Timestamp) : Prop :=
  1 <= month d <= 12 /\ day d = days_in_month (year d) (month d).

(** The rows of a frame that fall in a calendar month. *)
Definition rows_of_month (df : DataFrame) (y m : nat)
  : list (Timestamp * list num) :=
  filter (fun r => (year (fst r) =? y) && (month (fst r) =? m)) (rows df).

(** Whether a date reaches the update of the loop (line 126). *)
Definition succeeds (data momentum : DataFrame) (top_n_assets : nat)
  (date : Timestamp) : bool :=
  match rebalance data momentum top_n_assets date with
  | Some _ => true
  | None => false
  end.

(* ================================================================== *)
(** ** Price tables used as concrete inputs *)

Module Tables.

Definition symbols : list asset := ["USEU.MI"%string; "EUUS.MI"%string].

Definition next_day (d : Timestamp) : Timestamp :=
  if day d <? days_in_month (year d) (month d)
  then mkdate (year d) (month d) (S (day d))
  else if month d <? 12 then mkdate (year d) (S (month d)) 1
       else mkdate (S (year d)) 1 1.

Fixpoint days_from (d : Timestamp) (n : nat) : list Timestamp :=
  match n with
  | 0 => []
  | S n' => d :: days_from (next_day d) n'
  end.

(** [n] consecutive days from [start], two assets, the prices of row [i]
    given by [f i]. *)
Definition table (start : Timestamp) (n : nat) (f : nat -> list num)
  : DataFrame :=
  mkDF symbols (combine (days_from start n) (map f (seq 0 n))).

(** Three trading days around a week-end: Thursday 27 and Friday 28 April
    2017, Monday 1 May 2017. *)
Definition april : DataFrame :=
  mkDF symbols
       [ (mkdate 2017 4 27, [Fin 10; Fin 20]);
         (mkdate 2017 4 28, [Fin 11; Fin 19]);
         (mkdate 2017 5 1, [Fin 12; Fin 18]) ].

(** 340 days from 1 January 2020: the first asset gains one unit a day
    from 100, the second stays at 200. *)
Definition rising : DataFrame :=
  table (mkdate 2020 1 1) 340 (fun i => [of_nat (100 + i); Fin 200]).

(** The first 300 days of [rising]. *)
Definition rising300 : DataFrame :=
  table (mkdate 2020 1 1) 300 (fun i => [of_nat (100 + i); Fin 200]).

(** 313 days from 23 January 2020; the second asset is listed 31 days
    after the first. *)
Definition staggered : DataFrame :=
  table (mkdate 2020 1 23) 313
        (fun i => [of_nat (100 + i); if i <? 31 then NaN else Fin 200]).

(** 253 days from 1 January 2020, the first asset priced 1, 2, ..., 253. *)
Definition ramp : DataFrame :=
  table (mkdate 2020 1 1) 253 (fun i => [of_nat (S i); Fin 200]).

(** 252 days from 23 January 2020 (the last is 30 September), then
    2 October 2020 alone: a month with a single row. *)
Definition gapped : DataFrame :=
  mkDF symbols
       (combine (days_from (mkdate 2020 1 23) 252 ++ [mkdate 2020 10 2])
                (map (fun i => [of_nat (100 + i); Fin 200]) (seq 0 253))).

End Tables.

(* ================================================================== *)
(** ** The script as a whole *)

(** Lines 67-132 in the order the script runs them, from the downloaded
    table: fill, scores, the display of line 90, the dates, the loop.
    [None] is the [IndexError] of line 90, which ends the run before any
    date is derived; otherwise the dates and the final state. *)
Definition script (downloaded : DataFrame) (top_n_assets : nat)
  (initial_capital : num) : option (list Timestamp * State) :=
  let data := fillna_ffill downloaded in
  let momentum := momentum data in
  match initial_momentum_values momentum with
  | None => None
  | Some _ =>
      let rebalancing_dates := rebalancing_dates data momentum in
      Some (rebalancing_dates,
            backtest data momentum top_n_assets initial_capital
                     rebalancing_dates)
  end.

(* ================================================================== *)
(** ** The same program on binary64 *)

(** The definitions above, with the exact operations replaced by the
    operations of binary64 that the script runs on.  They decide what
    rounding and overflow do to a property: a statement about the sign or
    the finiteness of a computed number is checked here. *)
Module Binary64.
Import Floats.
Local Open Scope float_scope.

Definition is_nan (x : float) : bool := PrimFloat.is_nan x.
Definition notna (x : float) : bool := negb (is_nan x).
Definition is_finite (x : float) : bool :=
  negb (PrimFloat.is_nan x || PrimFloat.is_infinity x).
Definition gtb (x y : float) : bool := PrimFloat.ltb y x.
Definition of_nat (n : nat) : float :=
  PrimFloat.of_uint63 (Uint63.of_Z (Z.of_nat n)).

Definition Series (K : Type) := list (K * float).

Record DataFrame : Type := mkDF {
  columns : list asset;
  rows : list (Timestamp * list float)
}.

Definition index (df : DataFrame) : list Timestamp := map fst (rows df).

Definition loc (df : DataFrame) (d : Timestamp) : option (Series asset) :=
  match find (fun r => date_eqb (fst r) d) (rows df) with
  | Some r => Some (combine (columns df) (snd r))
  | None => None
  end.

Definition isnull_all {K} (s : Series K) : bool :=
  forallb (fun kv => is_nan (snd kv)) s.

Definition dropna {K} (s : Series K) : Series K :=
  filter (fun kv => notna (snd kv)) s.

Fixpoint insert_desc {K} (x : K * float) (l : Series K) : Series K :=
  match l with
  | [] => [x]
  | y :: l' => if gtb (snd x) (snd y) then x :: l else y :: insert_desc x l'
  end.

Definition sort_desc {K} (s : Series K) : Series K :=
  fold_left (fun acc x => insert_desc x acc) s [].

Definition nlargest {K} (n : nat) (s : Series K) : Series K :=
  firstn n (sort_desc (dropna s)).

Definition dropna_rows {I} (rs : list (I * list float))
  : list (I * list float) :=
  filter (fun r => forallb notna (snd r)) rs.

Fixpoint pad_cells (prev cur : list float) : list float :=
  match prev, cur with
  | p :: prev', c :: cur' => (if is_nan c then p else c) :: pad_cells prev' cur'
  | _, _ => cur
  end.

Fixpoint ffill_from {I} (prev : list float) (rs : list (I * list float))
  : list (I * list float) :=
  match rs with
  | [] => []
  | (i, r) :: rs' => let r' := pad_cells prev r in (i, r') :: ffill_from r' rs'
  end.

Definition ffill {I} (rs : list (I * list float)) : list (I * list float) :=
  match rs with
  | [] => []
  | (i, r) :: rs' => (i, r) :: ffill_from r rs'
  end.

Definition fillna_ffill (df : DataFrame) : DataFrame :=
  mkDF (columns df) (ffill (rows df)).

Definition iloc_neg (prices : list float) (k : nat) : float :=
  nth (length prices - k) prices nan.

Definition calculate_momentum (prices : list float) : float :=
  if (length prices <? 252)%nat then nan
  else
    let p0 := iloc_neg prices 1 in
    let p1 := iloc_neg prices 21 in
    let p3 := iloc_neg prices 63 in
    let p6 := iloc_neg prices 126 in
    let p12 := iloc_neg prices 252 in
    (12 * (p0 / p1 - 1)) + (4 * (p0 / p3 - 1))
    + (2 * (p0 / p6 - 1)) + (p0 / p12 - 1).

Definition count_valid (l : list float) : nat := length (filter notna l).

Definition window_at (w : nat) (col : list float) (i : nat) : list float :=
  skipn (S i - w) (firstn (S i) col).

Definition prep_values (col : list float) : list float :=
  map (fun x => if PrimFloat.is_infinity x then nan else x) col.

Definition rolling_apply (w : nat) (f : list float -> float)
  (col : list float) : list float :=
  let values := prep_values col in
  map (fun i => let win := window_at w values i in
                if (count_valid win <? w)%nat then nan else f win)
      (seq 0 (length values)).

Definition col_values (df : DataFrame) (j : nat) : list float :=
  map (fun r => nth j (snd r) nan) (rows df).

Definition rolling_apply_df (w : nat) (f : list float -> float)
  (df : DataFrame) : DataFrame :=
  let cols := map (fun j => rolling_apply w f (col_values df j))
                  (seq 0 (length (columns df))) in
  mkDF (columns df)
       (map (fun ir => (fst (snd ir), map (fun c => nth (fst ir) c nan) cols))
            (combine (seq 0 (length (rows df))) (rows df))).

Definition momentum (data : DataFrame) : DataFrame :=
  rolling_apply_df 252 calculate_momentum data.

Definition momentum_start_date (momentum : DataFrame) : option Timestamp :=
  match dropna_rows (rows momentum) with
  | [] => None
  | r :: _ => Some (fst r)
  end.

Definition rebalancing_dates (data momentum : DataFrame) : list Timestamp :=
  let rebalancing_dates := resample_M_index (index data) in
  match momentum_start_date momentum with
  | Some start => filter (fun d => date_ltb start d) rebalancing_dates
  | None => rebalancing_dates
  end.

Record State : Type := mkState {
  portfolio_value : float;
  portfolio_values : list float;
  portfolio_dates : list Timestamp;
  current_portfolio : option (list asset)
}.

Definition init (initial_capital : float) : State :=
  mkState initial_capital [initial_capital] [] None.

Definition get (row : Series asset) (a : asset) : float :=
  match find (fun kv => String.eqb (fst kv) a) row with
  | Some kv => snd kv
  | None => nan
  end.

Fixpoint zip_with (f : float -> float -> float) (xs ys : list float)
  : list float :=
  match xs, ys with
  | x :: xs', y :: ys' => f x y :: zip_with f xs' ys'
  | _, _ => []
  end.

Fixpoint pct_from {I} (prev : list float) (rs : list (I * list float))
  : list (I * list float) :=
  match rs with
  | [] => []
  | (i, r) :: rs' =>
      (i, zip_with (fun p c => c / p - 1) prev r) :: pct_from r rs'
  end.

Definition pct_change {I} (rs : list (I * list float))
  : list (I * list float) :=
  match ffill rs with
  | [] => []
  | (i, r) :: rs' => (i, map (fun _ => nan) r) :: pct_from r rs'
  end.

Definition sum (l : list float) : float :=
  fold_left PrimFloat.add (filter notna l) 0.
Definition mean (l : list float) : float := sum l / of_nat (count_valid l).
Definition prod (l : list float) : float :=
  fold_left PrimFloat.mul (filter notna l) 1.

Section Backtest.

Variables (data momentum : DataFrame) (top_n_assets : nat).

Definition top_assets_of (row : Series asset) : list asset :=
  map fst (nlargest top_n_assets (dropna row)).

Definition month_data (date : Timestamp) (top_assets : list asset)
  : list (Timestamp * list float) :=
  map (fun r => (fst r, map (get (combine (columns data) (snd r))) top_assets))
      (filter (fun r => date_leb (minus_MonthBegin date) (fst r)
                        && date_leb (fst r) date)
              (rows data)).

Definition monthly_returns (date : Timestamp) (top_assets : list asset)
  : Series Timestamp :=
  map (fun r => (fst r, mean (snd r)))
      (dropna_rows (pct_change (month_data date top_assets))).

Definition cumulative_return (monthly_returns : Series Timestamp) : float :=
  prod (map (fun kv => 1 + snd kv) monthly_returns) - 1.

Definition rebalance (date : Timestamp) : option (list asset * float) :=
  match loc momentum date with
  | None => None
  | Some row =>
      if isnull_all row then None
      else
        let top_assets := top_assets_of row in
        if (length top_assets <? top_n_assets)%nat then None
        else
          match monthly_returns date top_assets with
          | [] => None
          | mr => Some (top_assets, cumulative_return mr)
          end
  end.

Definition update (st : State) (date : Timestamp) (top_assets : list asset)
  (cumulative_return : float) : State :=
  let portfolio_value := portfolio_value st * (1 + cumulative_return) in
  mkState portfolio_value
          (portfolio_values st ++ [portfolio_value])
          (portfolio_dates st ++ [date])
          (Some top_assets).

Definition step (st : State) (date : Timestamp) : State :=
  match rebalance date with
  | None => st
  | Some (top_assets, r) => update st date top_assets r
  end.

Definition run (st : State) (dates : list Timestamp) : State :=
  fold_left step dates st.

End Backtest.

Definition backtest (data momentum : DataFrame) (top_n_assets : nat)
  (initial_capital : float) (dates : list Timestamp) : State :=
  run data momentum top_n_assets (init initial_capital) dates.

Definition sort_values_desc {K} (s : Series K) : Series K :=
  sort_desc (dropna s) ++ filter (fun kv => is_nan (snd kv)) s.

Definition initial_momentum_values (momentum : DataFrame)
  : option (Series asset) :=
  match dropna_rows (rows momentum) with
  | [] => None
  | r :: _ => Some (sort_values_desc (combine (columns momentum) (snd r)))
  end.

Definition script (downloaded : DataFrame) (top_n_assets : nat)
  (initial_capital : float) : option (list Timestamp * State) :=
  let data := fillna_ffill downloaded in
  let momentum := momentum data in
  match initial_momentum_values momentum with
  | None => None
  | Some _ =>
      let rebalancing_dates := rebalancing_dates data momentum in
      Some (rebalancing_dates,
            backtest data momentum top_n_assets initial_capital
                     rebalancing_dates)
  end.

(** A cell of a frame, and the run of observations that ends at a row,
    as for the exact program. *)
Definition cell (df : DataFrame) (i j : nat) : float :=
  nth j (snd (nth i (rows df) (mkdate 0 0 0, []))) nan.

Fixpoint run_length (l : list float) : nat :=
  match l with
  | x :: l' => if notna x then S (run_length l') else 0%nat
  | [] => 0%nat
  end.

Definition trailing_observations (col : list float) (i : nat) : nat :=
  run_length (rev (firstn (S i) (prep_values col))).

(** Section 8 of the specification on the finiteness of the score: with
    252 trailing observations and four finite price ratios the score is
    finite. *)
Definition finite_score_spec (data : DataFrame) (i j : nat) : Prop :=
  (i < length (rows data))%nat -> (j < length (columns data))%nat ->
  (252 <= trailing_observations (col_values data j) i)%nat ->
  is_finite (cell data i j / cell data (i - 20) j) = true ->
  is_finite (cell data i j / cell data (i - 62) j) = true ->
  is_finite (cell data i j / cell data (i - 125) j) = true ->
  is_finite (cell data i j / cell data (i - 251) j) = true ->
  is_finite (cell (momentum data) i j) = true.

Definition positive_prices (data : DataFrame) : bool :=
  forallb (fun r => forallb (fun x => PrimFloat.ltb 0 x) (snd r)) (rows data).


(** 252 days from 23 January 2020: the first asset stands at 1.0 and
    closes the last day at 2^1023 (about 9e307), the second stays at 200. *)
Definition spike : DataFrame :=
  mkDF Tables.symbols
       (combine (Tables.days_from (mkdate 2020 1 23) 252)
                (map (fun i => [if (i <? 251)%nat then 1 else 0x1p+1023; 200])
                     (seq 0 252))).



End Binary64.

(* ================================================================== *)
(** ** Dates: order and membership *)

Lemma date_eqb_eq (a b : Timestamp) : date_eqb a b = true <-> a = b.
Proof.
  destruct a as [ya ma da], b as [yb mb db]; unfold date_eqb; simpl.
  rewrite !andb_true_iff, !Nat.eqb_eq. split.
  - intros [[-> ->] ->]. reflexivity.
  - intros H. injection H as -> -> ->. auto.
Qed.

Lemma date_eqb_refl (a : Timestamp) : date_eqb a a = true.
Proof. apply date_eqb_eq. reflexivity. Qed.

Lemma mem_date_In (d : Timestamp) (l : list Timestamp) :
  mem_date d l = true <-> In d l.
Proof.
  unfold mem_date. rewrite existsb_exists. split.
  - intros [x [Hin Heq]]. apply date_eqb_eq in Heq. subst. assumption.
  - intros Hin. exists d. split; [assumption | apply date_eqb_refl].
Qed.

Lemma mem_date_false (d : Timestamp) (l : list Timestamp) :
  mem_date d l = false -> ~ In d l.
Proof.
  intros H Hin. apply mem_date_In in Hin. congruence.
Qed.

Lemma date_ltb_spec (a b : Timestamp) :
  date_ltb a b = true <->
  year a < year b \/
  (year a = year b /\ (month a < month b \/ (month a = month b /\ day a < day b))).
Proof.
  unfold date_ltb.
  rewrite !orb_true_iff, !andb_true_iff, !orb_true_iff, !andb_true_iff,
    !Nat.ltb_lt, !Nat.eqb_eq.
  tauto.
Qed.

Lemma date_lt_irrefl (a : Timestamp) : ~ date_lt a a.
Proof. unfold date_lt. rewrite date_ltb_spec. lia. Qed.

Lemma date_lt_trans (a b c : Timestamp) :
  date_lt a b -> date_lt b c -> date_lt a c.
Proof. unfold date_lt. rewrite !date_ltb_spec. lia. Qed.

Lemma date_leb_spec (a b : Timestamp) :
  date_leb a b = true <-> date_lt a b \/ a = b.
Proof.
  unfold date_leb, date_lt. rewrite negb_true_iff.
  destruct (date_ltb b a) eqn:Hba.
  - split; [discriminate|].
    intros [Hab | ->].
    + exfalso. apply (date_lt_irrefl a). apply date_lt_trans with b; assumption.
    + exfalso. apply (date_lt_irrefl b). assumption.
  - split; [intros _ | reflexivity].
    destruct (date_ltb a b) eqn:Hab; [left; reflexivity | right].
    assert (Hn1 : ~ date_ltb a b = true) by congruence.
    assert (Hn2 : ~ date_ltb b a = true) by congruence.
    rewrite date_ltb_spec in Hn1, Hn2.
    destruct a as [ya ma da], b as [yb mb db]; simpl in *.
    f_equal; lia.
Qed.

Lemma month_end_lt (k1 k2 : nat) :
  k1 < k2 -> date_lt (month_end k1) (month_end k2).
Proof.
  intros Hlt. unfold date_lt. rewrite date_ltb_spec.
  unfold month_end; cbn [year month day].
  pose proof (Nat.div_mod_eq k1 12) as E1.
  pose proof (Nat.div_mod_eq k2 12) as E2.
  pose proof (Nat.mod_upper_bound k1 12) as B1.
  pose proof (Nat.mod_upper_bound k2 12) as B2.
  lia.
Qed.


Lemma ascending_month_ends (n a : nat) :
  ascending (map month_end (seq a n)).
Proof.
  revert a. induction n as [|n IH]; intros a; simpl.
  - constructor.
  - constructor; [apply IH|].
    apply Forall_forall. intros d Hd.
    apply in_map_iff in Hd. destruct Hd as [k [<- Hk]].
    apply in_seq in Hk. apply month_end_lt. lia.
Qed.

Lemma ascending_filter (f : Timestamp -> bool) (l : list Timestamp) :
  ascending l -> ascending (filter f l).
Proof.
  induction 1 as [|a l Hs IH Hall]; simpl.
  - constructor.
  - destruct (f a); [|assumption].
    constructor; [assumption|].
    rewrite Forall_forall in *. intros x Hx.
    apply filter_In in Hx. apply Hall. tauto.
Qed.

Lemma resample_M_index_ascending (idx : list Timestamp) :
  ascending (resample_M_index idx).
Proof.
  destruct idx as [|d0 idx]; simpl.
  - constructor.
  - apply ascending_month_ends.
Qed.

(** The dates the loop walks are strictly ascending, whatever the table. *)
Lemma rebalancing_dates_ascending (data momentum : DataFrame) :
  ascending (rebalancing_dates data momentum).
Proof.
  unfold rebalancing_dates.
  destruct (momentum_start_date momentum).
  - apply ascending_filter, resample_M_index_ascending.
  - apply resample_M_index_ascending.
Qed.

(** [momentum_start_date] is the first date at which every asset has a
    defined score. *)
Lemma momentum_start_date_first_all (m : DataFrame) :
  momentum_start_date m = first_date_where all_defined m.
Proof.
  unfold momentum_start_date, first_date_where, dropna_rows, all_defined.
  induction (rows m) as [|r rs IH]; simpl; [reflexivity|].
  destruct (forallb notna (snd r)); simpl; [reflexivity | assumption].
Qed.

(* ================================================================== *)
(** ** RebalanceScheduler *)

Lemma mem_date_true (d : Timestamp) (l : list Timestamp) :
  mem_date d l = true -> In d l.
Proof. apply mem_date_In. Qed.


(** C3, as worded, fails on the table [staggered]: the first asset has
    its first score on 30 September 2020 and both have one from
    31 October 2020 on; the month ends 30 September and 31 October are
    not strictly before 30 September, and the code drops both. *)
Lemma scheduler_spec_fails_on_staggered :
  ~ scheduler_spec Tables.staggered (momentum Tables.staggered).
Proof.
  intros H.
  specialize (H (mkdate 2020 10 31)).
  assert (Hin : In (mkdate 2020 10 31)
                   (resample_M_index (index Tables.staggered))).
  { apply mem_date_true. vm_compute. reflexivity. }
  destruct (H Hin) as [Hex _]. clear H Hin.
  destruct Hex as [s [Hs Hlt]].
  - apply mem_date_false. vm_compute. reflexivity.
  - assert (E : first_date_where any_defined (momentum Tables.staggered)
                = Some (mkdate 2020 9 30)) by (vm_compute; reflexivity).
    rewrite E in Hs. injection Hs as <-.
    revert Hlt. unfold date_lt. vm_compute. discriminate.
Qed.

(** C3 (amended): a month-end label of the price calendar is dropped from
    the re-balancing dates if and only if a momentum start date exists
    and the label is on or before it, the start date being the first
    date at which every asset has a defined score. *)
Theorem scheduler_drops_up_to_start (data momentum : DataFrame) (d : Timestamp) :
  In d (resample_M_index (index data)) ->
  (~ In d (rebalancing_dates data momentum) <->
   exists s, first_date_where all_defined momentum = Some s
             /\ date_leb d s = true).
Proof.
  intros Hin. unfold rebalancing_dates.
  rewrite momentum_start_date_first_all.
  destruct (first_date_where all_defined momentum) as [s|].
  - rewrite filter_In. unfold date_leb. split.
    + intros Hn. exists s. split; [reflexivity|].
      destruct (date_ltb s d); [exfalso; apply Hn; split; auto | reflexivity].
    + intros [s' [Hs' Hle]] [_ Hlt]. injection Hs' as <-.
      rewrite Hlt in Hle. discriminate.
  - split.
    + intros Hn. contradiction.
    + intros [s' [Hs' _]]. discriminate.
Qed.

Lemma scheduler_drops_up_to_start_witness :
  ~ In (mkdate 2020 10 31)
       (rebalancing_dates Tables.staggered (momentum Tables.staggered)).
Proof.
  assert (Hin : In (mkdate 2020 10 31)
                   (resample_M_index (index Tables.staggered))).
  { apply mem_date_true. vm_compute. reflexivity. }
  refine (proj2 (scheduler_drops_up_to_start Tables.staggered
                   (momentum Tables.staggered) (mkdate 2020 10 31) Hin) _).
  exists (mkdate 2020 10 31). split; vm_compute; reflexivity.
Defined.

(** C5: the table [gapped] has a row for every day from 23 January to
    30 September 2020 and one for 2 October.  The script passes the
    display of line 90 and derives a single re-balancing date, the
    calendar month end 31 October 2020, which is not a date of the price
    table (its last row, and the last trading day of October, is the
    2nd); the loop skips it and the run ends in the initial state. *)
Theorem rebalancing_dates_outside_index :
  script Tables.gapped 2 (Fin 100000)
  = Some ([mkdate 2020 10 31], init (Fin 100000))
  /\ rebalancing_dates (fillna_ffill Tables.gapped)
                       (momentum (fillna_ffill Tables.gapped))
     = [mkdate 2020 10 31]
  /\ ~ In (mkdate 2020 10 31) (index (fillna_ffill Tables.gapped))
  /\ last (index (fillna_ffill Tables.gapped)) (mkdate 0 0 0)
     = mkdate 2020 10 2.
Proof.
  split; [vm_compute; reflexivity|].
  split; [vm_compute; reflexivity|].
  split.
  - apply mem_date_false. vm_compute. reflexivity.
  - vm_compute. reflexivity.
Qed.

(* ================================================================== *)
(** ** A momentum table without any score *)

Lemma start_date_undefined (momentum : DataFrame) :
  columns momentum <> [] -> well_formed momentum ->
  entirely_undefined momentum = true ->
  momentum_start_date momentum = None.
Proof.
  intros Hcols Hwf Hnan. unfold momentum_start_date.
  assert (E : dropna_rows (rows momentum) = []).
  { unfold dropna_rows, well_formed, entirely_undefined in *.
    induction (rows momentum) as [|r rs IH]; simpl; [reflexivity|].
    simpl in Hnan. apply andb_true_iff in Hnan. destruct Hnan as [Hr Hrs].
    inversion Hwf as [|r' rs' Hlen Hwf']; subst.
    destruct (snd r) as [|x xs] eqn:Er.
    - simpl in Hlen. destruct (columns momentum); [congruence | discriminate].
    - simpl in Hr. apply andb_true_iff in Hr. destruct Hr as [Hx _].
      simpl. unfold notna at 1. rewrite Hx. simpl. apply IH; assumption. }
  rewrite E. reflexivity.
Qed.

Lemma map_fst_combine_seq {A B} (rs : list (A * B)) (a : nat) :
  map (fun ir : nat * (A * B) => fst (snd ir)) (combine (seq a (length rs)) rs)
  = map fst rs.
Proof.
  revert a. induction rs as [|r rs IH]; intros a; simpl; [reflexivity|].
  f_equal. apply IH.
Qed.

Lemma momentum_row_inv (data : DataFrame) (r : Timestamp * list num) :
  In r (rows (momentum data)) ->
  exists i, i < length (rows data)
    /\ snd r = map (fun c => nth i c NaN)
                   (map (fun j => rolling_apply 252 calculate_momentum
                                    (col_values data j))
                        (seq 0 (length (columns data)))).
Proof.
  unfold momentum, rolling_apply_df. cbn [rows]. intros H.
  apply in_map_iff in H. destruct H as [[i r0] [<- Hin]].
  apply in_combine_l in Hin. apply in_seq in Hin.
  exists i. split; [lia | reflexivity].
Qed.

Lemma momentum_rows_well_formed (data : DataFrame) :
  well_formed (momentum data).
Proof.
  unfold well_formed. apply Forall_forall. intros r Hr.
  destruct (momentum_row_inv data r Hr) as [i [_ E]].
  rewrite E, !length_map, length_seq. reflexivity.
Qed.

(** Without a row that has a score for every asset, [iloc[0]] of line 90
    has nothing to return. *)
Lemma no_start_date_no_display (momentum : DataFrame) :
  momentum_start_date momentum = None ->
  initial_momentum_values momentum = None.
Proof.
  unfold momentum_start_date, initial_momentum_values.
  destruct (dropna_rows (rows momentum)); [reflexivity | discriminate].
Qed.

(** C4: when no asset has a defined score on any date, the script stops
    at the display of line 90, whose [iloc[0]] on the empty frame raises:
    the lines that derive the dates (99-104, with their guard for this
    very case) and the loop are never reached, and the run yields neither
    an empty date sequence nor the initial state. *)
Theorem undefined_momentum_stops_the_script
  (downloaded : DataFrame) (N : nat) (initial_capital : num) :
  columns downloaded <> [] ->
  entirely_undefined (momentum (fillna_ffill downloaded)) = true ->
  script downloaded N initial_capital = None.
Proof.
  intros Hcols Hnan. unfold script. cbv zeta.
  rewrite (no_start_date_no_display (momentum (fillna_ffill downloaded)));
    [reflexivity|].
  apply start_date_undefined.
  - exact Hcols.
  - apply momentum_rows_well_formed.
  - exact Hnan.
Qed.

Lemma undefined_momentum_stops_the_script_witness :
  entirely_undefined (momentum (fillna_ffill Tables.april)) = true
  /\ script Tables.april 3 (Fin 100000) = None.
Proof.
  assert (Hnan : entirely_undefined (momentum (fillna_ffill Tables.april))
                 = true) by (vm_compute; reflexivity).
  split; [exact Hnan|].
  refine (undefined_momentum_stops_the_script Tables.april 3 (Fin 100000)
            _ Hnan).
  discriminate.
Defined.

(* ================================================================== *)
(** ** PortfolioSimulator: one transition *)

Lemma length_insert_desc {K} (x : K * num) (l : Series K) :
  length (insert_desc x l) = S (length l).
Proof.
  induction l as [|y l IH]; simpl; [reflexivity|].
  destruct (gtb (snd x) (snd y)); simpl; [reflexivity | now rewrite IH].
Qed.

Lemma length_sort_desc {K} (s : Series K) :
  length (sort_desc s) = length s.
Proof.
  unfold sort_desc.
  assert (G : forall acc : Series K,
             length (fold_left (fun acc x => insert_desc x acc) s acc)
             = length s + length acc).
  { induction s as [|x s IH]; intros acc; simpl; [reflexivity|].
    rewrite IH, length_insert_desc. lia. }
  rewrite G. simpl. lia.
Qed.

Lemma dropna_idempotent {K} (s : Series K) : dropna (dropna s) = dropna s.
Proof.
  unfold dropna. induction s as [|x s IH]; simpl; [reflexivity|].
  destruct (notna (snd x)) eqn:E; simpl; [rewrite E, IH; reflexivity | exact IH].
Qed.

(** [nlargest] gives [N] labels when [N] scores are defined, and all the
    defined ones otherwise. *)
Lemma length_top_assets_of (N : nat) (row : Series asset) :
  length (top_assets_of N row) = Nat.min N (length (dropna row)).
Proof.
  unfold top_assets_of, nlargest.
  rewrite length_map, length_firstn, length_sort_desc, dropna_idempotent.
  reflexivity.
Qed.



Lemma rebalance_selects (data momentum : DataFrame) (N : nat)
  (date : Timestamp) (top : list asset) (r : num) :
  rebalance data momentum N date = Some (top, r) ->
  exists row, loc momentum date = Some row /\ top = top_assets_of N row
              /\ length top = N.
Proof.
  unfold rebalance. intros H.
  destruct (loc momentum date) as [row|]; [|discriminate].
  destruct (isnull_all row); [discriminate|].
  destruct (length (top_assets_of N row) <? N) eqn:E; [discriminate|].
  destruct (monthly_returns data date (top_assets_of N row)); [discriminate|].
  injection H as <- _. exists row. repeat split.
  apply Nat.ltb_ge in E. rewrite length_top_assets_of in *. lia.
Qed.



(* ================================================================== *)
(** ** PortfolioSimulator: the whole run *)

Section Run.

Variables (data momentum : DataFrame) (N : nat).

Lemma compound_cons (v r : num) (rs : list num) :
  compound v (r :: rs) = v :: compound (v * (Fin 1 + r)) rs.
Proof. reflexivity. Qed.

Lemma compound_head (v : num) (rs : list num) :
  exists l, compound v rs = v :: l.
Proof. destruct rs; simpl; eauto. Qed.

Lemma length_compound (rs : list num) (v : num) :
  length (compound v rs) = S (length rs).
Proof.
  revert v. induction rs as [|r rs IH]; intros v; [reflexivity|].
  rewrite compound_cons. simpl. now rewrite IH.
Qed.

Lemma compound_step (rs : list num) (v : num) (k : nat) :
  k < length rs ->
  nth (S k) (compound v rs) NaN
  = (nth k (compound v rs) NaN * (Fin 1 + nth k rs NaN))%num.
Proof.
  revert v k. induction rs as [|r rs IH]; intros v k Hk; simpl in Hk; [lia|].
  rewrite compound_cons.
  destruct k as [|k].
  - destruct (compound_head (v * (Fin 1 + r)) rs) as [l ->]. reflexivity.
  - change (nth (S (S k)) (v :: compound (v * (Fin 1 + r)) rs) NaN)
      with (nth (S k) (compound (v * (Fin 1 + r)) rs) NaN).
    rewrite IH by lia. reflexivity.
Qed.

Lemma compound_last (rs : list num) (v : num) :
  last (compound v rs) NaN
  = fold_left (fun v r => (v * (Fin 1 + r))%num) rs v.
Proof.
  revert v. induction rs as [|r rs IH]; intros v; [reflexivity|].
  rewrite compound_cons. cbn [fold_left]. rewrite <- IH.
  destruct (compound_head (v * (Fin 1 + r)) rs) as [l E].
  rewrite E. reflexivity.
Qed.

(** What a run adds to the recorded values and to the running value. *)
Lemma run_values (dates : list Timestamp) (st : State) :
  portfolio_values (run data momentum N st dates)
  = portfolio_values st ++ tl (compound (portfolio_value st) (period_returns data momentum N dates))
  /\ portfolio_value (run data momentum N st dates)
     = fold_left (fun v r => (v * (Fin 1 + r))%num) (period_returns data momentum N dates)
                 (portfolio_value st).
Proof.
  revert st. unfold run.
  induction dates as [|d ds IH]; intros st.
  - simpl. rewrite app_nil_r. split; reflexivity.
  - cbn [fold_left period_returns]. unfold step at 2 4.
    destruct (rebalance data momentum N d) as [[top r]|].
    + destruct (IH (update st d top r)) as [IHv IHp].
      rewrite IHv, IHp. rewrite compound_cons.
      split; [|reflexivity].
      change (portfolio_values (update st d top r))
        with (portfolio_values st ++ [(portfolio_value st * (Fin 1 + r))%num]).
      change (portfolio_value (update st d top r))
        with ((portfolio_value st * (Fin 1 + r))%num).
      rewrite <- app_assoc. cbn [tl].
      destruct (compound_head (portfolio_value st * (Fin 1 + r)) (period_returns data momentum N ds))
        as [l ->].
      reflexivity.
    + apply IH.
Qed.

(** The recorded dates and values stay aligned: one value per date after
    the initial capital. *)
Lemma run_history (dates : list Timestamp) (st : State) :
  length (portfolio_values st) = S (length (portfolio_dates st)) ->
  length (portfolio_values (run data momentum N st dates))
  = S (length (portfolio_dates (run data momentum N st dates))).
Proof.
  revert st. unfold run.
  induction dates as [|d ds IH]; intros st Hlen; simpl; [assumption|].
  apply IH. unfold step.
  destruct (rebalance data momentum N d) as [[top r]|]; [|assumption].
  unfold update; simpl. rewrite !length_app. simpl. lia.
Qed.

End Run.

(** C7: the recorded values are the initial capital followed, for each
    date that is not skipped, by the previous value times one plus the
    period return of that date; replaying the period returns from the
    initial capital gives the recorded values and the final value. *)
Theorem compounding_law
  (data momentum : DataFrame) (N : nat) (initial_capital : num)
  (dates : list Timestamp) :
  let final := backtest data momentum N initial_capital dates in
  let returns := period_returns data momentum N dates in
  let values := portfolio_values final in
  nth 0 values NaN = initial_capital
  /\ length values = S (length returns)
  /\ (forall k, k < length returns ->
        nth (S k) values NaN
        = (nth k values NaN * (Fin 1 + nth k returns NaN))%num)
  /\ values = compound initial_capital returns
  /\ portfolio_value final
     = fold_left (fun v r => (v * (Fin 1 + r))%num) returns initial_capital
  /\ portfolio_value final = last values NaN.
Proof.
  intros final returns values.
  destruct (run_values data momentum N dates (init initial_capital))
    as [Hv Hp].
  fold (backtest data momentum N initial_capital dates) in Hv, Hp.
  fold final in Hv, Hp. fold returns in Hv, Hp. fold values in Hv.
  simpl in Hv, Hp.
  assert (E : values = compound initial_capital returns).
  { rewrite Hv. destruct (compound_head initial_capital returns) as [l El].
    rewrite El. reflexivity. }
  rewrite E. repeat split.
  - destruct (compound_head initial_capital returns) as [l ->]. reflexivity.
  - apply length_compound.
  - intros k Hk. apply compound_step. assumption.
  - exact Hp.
  - rewrite compound_last. exact Hp.
Qed.

Lemma compounding_law_witness :
  let final := backtest Tables.rising (momentum Tables.rising) 1 (Fin 100000)
                 (rebalancing_dates Tables.rising (momentum Tables.rising)) in
  let returns := period_returns Tables.rising (momentum Tables.rising) 1
                   (rebalancing_dates Tables.rising (momentum Tables.rising)) in
  nth 2 (portfolio_values final) NaN
  = (nth 1 (portfolio_values final) NaN * (Fin 1 + nth 1 returns NaN))%num.
Proof.
  intros final returns.
  refine (proj1 (proj2 (proj2 (compounding_law Tables.rising
            (momentum Tables.rising) 1 (Fin 100000)
            (rebalancing_dates Tables.rising (momentum Tables.rising)))))
          1 _).
  vm_compute. lia.
Defined.

(* ================================================================== *)
(** ** ReportBuilder: the month-to-date figure *)

Lemma map_snd_combine' {A B} (l1 : list A) (l2 : list B) :
  length l1 = length l2 -> map snd (combine l1 l2) = l2.
Proof.
  revert l2. induction l1 as [|a l1 IH]; intros [|b l2] H; simpl in *;
    try discriminate; [reflexivity|].
  f_equal. apply IH. lia.
Qed.

(** After a run the recorded values are the initial capital followed by
    the values of the history. *)
Lemma values_of_history (data momentum : DataFrame) (N : nat)
  (initial_capital : num) (dates : list Timestamp) :
  let final := backtest data momentum N initial_capital dates in
  portfolio_values final = initial_capital :: map snd (history final).
Proof.
  intros final.
  destruct (run_values data momentum N dates (init initial_capital)) as [Hv _].
  pose proof (run_history data momentum N dates (init initial_capital) eq_refl)
    as Hlen.
  fold (backtest data momentum N initial_capital dates) in Hv, Hlen.
  fold final in Hv, Hlen. cbn [init portfolio_values portfolio_value app] in Hv.
  unfold history. rewrite Hv in *. cbn [tl]. cbn [length] in Hlen.
  rewrite map_snd_combine'; [reflexivity | lia].
Qed.

Lemma mtd_of_one_value (st : State) (a : num) :
  portfolio_values st = [a] -> portfolio_mtd_return st = Fin 0.
Proof. unfold portfolio_mtd_return. intros ->. reflexivity. Qed.

Lemma mtd_of_last_two (st : State) (l : list num) (a b : num) :
  portfolio_values st = l ++ [a; b] ->
  portfolio_mtd_return st = ((b / a - Fin 1) * Fin 100)%num.
Proof.
  unfold portfolio_mtd_return, iloc_neg. intros ->.
  rewrite length_app. cbn [length].
  assert (E : (1 <? length l + 2) = true) by (apply Nat.ltb_lt; lia).
  rewrite E.
  replace (length l + 2 - 1) with (length l + 1) by lia.
  replace (length l + 2 - 2) with (length l + 0) by lia.
  rewrite !app_nth2_plus. reflexivity.
Qed.

(** C8 (amended): the reported figure is a percentage taken over the
    recorded values, which start with the initial capital.  It is zero
    when the history is empty; with one history entry it is 100 times
    (that value over the initial capital, minus one); with two or more it
    is 100 times (the ratio of the last two history values, minus one). *)
Theorem mtd_return_percent
  (data momentum : DataFrame) (N : nat) (initial_capital : num)
  (dates : list Timestamp) :
  let final := backtest data momentum N initial_capital dates in
  (history final = [] -> portfolio_mtd_return final = Fin 0)
  /\ (forall d v, history final = [(d, v)] ->
        portfolio_mtd_return final
        = ((v / initial_capital - Fin 1) * Fin 100)%num)
  /\ (forall h d2 v2 d1 v1, history final = h ++ [(d2, v2); (d1, v1)] ->
        portfolio_mtd_return final = ((v1 / v2 - Fin 1) * Fin 100)%num).
Proof.
  intros final.
  pose proof (values_of_history data momentum N initial_capital dates) as Hv.
  cbv zeta in Hv. fold final in Hv.
  split; [|split].
  - intros Hh. rewrite Hh in Hv. apply (mtd_of_one_value final initial_capital Hv).
  - intros d v Hh. rewrite Hh in Hv.
    apply (mtd_of_last_two final [] initial_capital v Hv).
  - intros h d2 v2 d1 v1 Hh. rewrite Hh in Hv.
    rewrite map_app in Hv. cbn [map snd] in Hv.
    apply (mtd_of_last_two final (initial_capital :: map snd h) v2 v1 Hv).
Qed.

Lemma mtd_return_percent_witness :
  let final := backtest Tables.rising300 (momentum Tables.rising300) 1
                 (Fin 100000)
                 (rebalancing_dates Tables.rising300 (momentum Tables.rising300)) in
  exists d v, history final = [(d, v)]
              /\ portfolio_mtd_return final
                 = ((v / Fin 100000 - Fin 1) * Fin 100)%num.
Proof.
  intros final.
  assert (E : { dv | history final = [dv] }).
  { eexists. vm_compute. reflexivity. }
  destruct E as [[d v] E].
  exists d, v. split; [exact E|].
  exact (proj1 (proj2 (mtd_return_percent Tables.rising300
           (momentum Tables.rising300) 1 (Fin 100000)
           (rebalancing_dates Tables.rising300 (momentum Tables.rising300))))
         d v E).
Defined.

Lemma num_eqb_refl (x : num) : num_eqb x x = true.
Proof.
  destruct x as [q|s|]; simpl.
  - apply Qeq_bool_iff. reflexivity.
  - apply Bool.eqb_reflx.
  - reflexivity.
Qed.

Lemma num_eqb_neq (x y : num) : num_eqb x y = false -> x <> y.
Proof.
  intros H E. subst y. rewrite num_eqb_refl in H. discriminate.
Qed.


(** C8, as worded, fails on two runs that select one asset: on the
    300-day table the history has one entry and the reported figure is
    not zero; on the 340-day table the history has three entries and the
    reported figure is not the ratio of the last two minus one (it is
    100 times that). *)
Lemma mtd_spec_fails_on_rising :
  ~ mtd_spec (backtest Tables.rising300 (momentum Tables.rising300) 1
                (Fin 100000)
                (rebalancing_dates Tables.rising300 (momentum Tables.rising300)))
  /\ ~ mtd_spec (backtest Tables.rising (momentum Tables.rising) 1
                   (Fin 100000)
                   (rebalancing_dates Tables.rising (momentum Tables.rising))).
Proof.
  split; unfold mtd_spec; apply num_eqb_neq; vm_compute; reflexivity.
Qed.

(* ================================================================== *)
(** ** Positive prices give a positive portfolio value *)


Section Positivity.
Local Open Scope Q_scope.

Lemma Qlt_bool_iff (a b : Q) : Qlt_bool a b = true <-> a < b.
Proof.
  unfold Qlt_bool. rewrite negb_true_iff.
  split.
  - intros H. apply Qnot_le_lt. intros Hle.
    apply Qle_bool_iff in Hle. congruence.
  - intros H. destruct (Qle_bool b a) eqn:E; [|reflexivity].
    apply Qle_bool_iff in E. exfalso. apply (Qlt_not_le a b H E).
Qed.

Lemma Qzero_false (q : Q) : ~ q == 0 -> Qzero q = false.
Proof.
  intros H. unfold Qzero. destruct (Qeq_bool q 0) eqn:E; [|reflexivity].
  apply Qeq_bool_iff in E. contradiction.
Qed.











End Positivity.

Section PositiveRun.

Variable data : DataFrame.
Hypothesis prices : positive_prices data = true.














Variables (momentum : DataFrame) (N : nat).



End PositiveRun.



Section Binary64Value.
Import Floats.
Import Binary64.
Local Open Scope float_scope.



End Binary64Value.

(* ================================================================== *)
(** ** MomentumCalculator: the rolling window *)

Lemma nth_map_seq {A} (g : nat -> A) (n i : nat) (d : A) :
  i < n -> nth i (map g (seq 0 n)) d = g i.
Proof.
  intros H. rewrite (nth_indep _ d (g 0)) by (rewrite length_map, length_seq; lia).
  rewrite map_nth. rewrite seq_nth by lia. reflexivity.
Qed.

Lemma length_prep_values (col : list num) :
  length (prep_values col) = length col.
Proof. unfold prep_values. apply length_map. Qed.

(** A value the window counts as an observation is the price itself. *)
Lemma prep_values_nth (col : list num) (k : nat) :
  notna (nth k (prep_values col) NaN) = true ->
  nth k (prep_values col) NaN = nth k col NaN.
Proof.
  unfold prep_values.
  set (h := fun x : num => match x with Inf _ => NaN | _ => x end).
  change NaN with (h NaN) at 1 2. rewrite map_nth.
  destruct (nth k col NaN); simpl; [reflexivity | discriminate | reflexivity].
Qed.

Lemma rolling_apply_nth (w : nat) (f : list num -> num) (col : list num) (i : nat) :
  i < length col ->
  nth i (rolling_apply w f col) NaN
  = if count_valid (window_at w (prep_values col) i) <? w then NaN
    else f (window_at w (prep_values col) i).
Proof.
  intros H. unfold rolling_apply.
  rewrite nth_map_seq by (rewrite length_prep_values; assumption).
  reflexivity.
Qed.

Lemma nth_nil_NaN (j : nat) : nth j (@nil num) NaN = NaN.
Proof. destruct j; reflexivity. Qed.

Lemma col_values_nth (data : DataFrame) (j k : nat) :
  nth k (col_values data j) NaN = cell data k j.
Proof.
  unfold col_values, cell.
  set (h := fun r : Timestamp * list num => nth j (snd r) NaN).
  destruct (Nat.lt_ge_cases k (length (rows data))) as [Hk | Hk].
  - rewrite (nth_indep _ NaN (h (mkdate 0 0 0, [])))
      by (rewrite length_map; assumption).
    rewrite map_nth. reflexivity.
  - rewrite nth_overflow by (rewrite length_map; assumption).
    rewrite (nth_overflow (rows data)) by assumption.
    simpl. symmetry. apply nth_nil_NaN.
Qed.

Lemma length_col_values (data : DataFrame) (j : nat) :
  length (col_values data j) = length (rows data).
Proof. unfold col_values. apply length_map. Qed.

(** A cell of the momentum table is the rolling score of its column. *)
Lemma momentum_cell (data : DataFrame) (i j : nat) :
  i < length (rows data) -> j < length (columns data) ->
  cell (momentum data) i j
  = nth i (rolling_apply 252 calculate_momentum (col_values data j)) NaN.
Proof.
  intros Hi Hj. unfold cell, momentum, rolling_apply_df. cbn [rows].
  set (cols := map (fun j => rolling_apply 252 calculate_momentum
                                (col_values data j))
                   (seq 0 (length (columns data)))).
  set (g := fun ir : nat * (Timestamp * list num) =>
              (fst (snd ir), map (fun c => nth (fst ir) c NaN) cols)).
  rewrite (nth_indep _ (mkdate 0 0 0, []) (g (0, (mkdate 0 0 0, []))))
    by (rewrite length_map, length_combine, length_seq; lia).
  rewrite map_nth.
  rewrite combine_nth by (rewrite length_seq; reflexivity).
  rewrite seq_nth by assumption.
  unfold g. cbn [fst snd Nat.add].
  set (h := fun c : list num => nth i c NaN).
  rewrite (nth_indep _ NaN (h []))
    by (rewrite length_map; unfold cols; rewrite length_map, length_seq;
        assumption).
  rewrite map_nth. unfold h, cols. rewrite nth_map_seq by assumption.
  reflexivity.
Qed.

Lemma length_window_at (w : nat) (col : list num) (i : nat) :
  i < length col -> length (window_at w col i) = Nat.min w (S i).
Proof.
  intros H. unfold window_at. rewrite length_skipn, length_firstn. lia.
Qed.

Lemma window_at_nth (w : nat) (col : list num) (i k : nat) :
  w <= S i -> k < w ->
  nth k (window_at w col i) NaN = nth (S i - w + k) col NaN.
Proof.
  intros Hw Hk. unfold window_at. rewrite nth_skipn, nth_firstn.
  assert (E : (S i - w + k <? S i) = true) by (apply Nat.ltb_lt; lia).
  rewrite E. reflexivity.
Qed.

Lemma count_valid_le (l : list num) : count_valid l <= length l.
Proof.
  unfold count_valid. induction l as [|x l IH]; simpl; [lia|].
  destruct (notna x); simpl; lia.
Qed.

Lemma count_valid_all (l : list num) :
  forallb notna l = true -> count_valid l = length l.
Proof.
  unfold count_valid. induction l as [|x l IH]; simpl; [reflexivity|].
  intros H. apply andb_true_iff in H. destruct H as [-> H]. simpl.
  now rewrite IH.
Qed.

Lemma count_valid_some_nan (l : list num) :
  forallb notna l = false -> count_valid l < length l.
Proof.
  induction l as [|x l IH]; simpl; [discriminate|].
  intros H. pose proof (count_valid_le l) as Hle. unfold count_valid in *.
  simpl. destruct (notna x); simpl in *; [apply IH in H|]; lia.
Qed.

Lemma run_length_le (l : list num) : run_length l <= length l.
Proof.
  induction l as [|x l IH]; simpl; [lia|]. destruct (notna x); lia.
Qed.

Lemma run_length_app_all (l1 l2 : list num) :
  forallb notna l1 = true ->
  run_length (l1 ++ l2) = length l1 + run_length l2.
Proof.
  induction l1 as [|x l1 IH]; simpl; [reflexivity|].
  intros H. apply andb_true_iff in H. destruct H as [-> H]. now rewrite IH.
Qed.

Lemma run_length_app_break (l1 l2 : list num) :
  forallb notna l1 = false -> run_length (l1 ++ l2) < length l1.
Proof.
  induction l1 as [|x l1 IH]; simpl; [discriminate|].
  destruct (notna x); simpl; intros H; [apply IH in H|]; lia.
Qed.

Lemma forallb_rev {A} (f : A -> bool) (l : list A) :
  forallb f (rev l) = forallb f l.
Proof.
  induction l as [|x l IH]; simpl; [reflexivity|].
  rewrite forallb_app, IH. simpl. rewrite andb_true_r. apply andb_comm.
Qed.

(** The window holds [w] observations exactly when the run of
    observations that ends at row [i] is at least [w] long. *)
Lemma window_full_run (w : nat) (col : list num) (i : nat) :
  i < length col ->
  (w <= count_valid (window_at w col i)
   <-> w <= run_length (rev (firstn (S i) col))).
Proof.
  intros Hi.
  pose proof (length_window_at w col i Hi) as Hlen.
  pose proof (count_valid_le (window_at w col i)) as Hle.
  assert (Hsplit : rev (firstn (S i) col)
                   = rev (window_at w col i)
                     ++ rev (firstn (S i - w) (firstn (S i) col))).
  { unfold window_at. rewrite <- rev_app_distr, firstn_skipn. reflexivity. }
  assert (HL : length (firstn (S i) col) = S i)
    by (rewrite length_firstn; lia).
  rewrite Hsplit.
  destruct (forallb notna (window_at w col i)) eqn:Hall.
  - rewrite run_length_app_all by (rewrite forallb_rev; assumption).
    rewrite length_rev, (count_valid_all _ Hall), Hlen.
    split; intros H; [lia|].
    pose proof (run_length_le (rev (firstn (S i - w) (firstn (S i) col)))) as Hr.
    rewrite length_rev, length_firstn, HL in Hr. lia.
  - pose proof (count_valid_some_nan _ Hall) as Hlt.
    pose proof (run_length_app_break (rev (window_at w col i))
                  (rev (firstn (S i - w) (firstn (S i) col)))) as Hb.
    rewrite forallb_rev, length_rev in Hb. specialize (Hb Hall).
    split; intros H; lia.
Qed.

Lemma window_full_iff (w : nat) (col : list num) (i : nat) :
  i < length col ->
  (w <= count_valid (window_at w (prep_values col) i)
   <-> w <= trailing_observations col i).
Proof.
  intros Hi. unfold trailing_observations.
  apply window_full_run. rewrite length_prep_values. assumption.
Qed.

(** Every row of a full window is an observation. *)
Lemma window_full_nth (w : nat) (col : list num) (i k : nat) :
  i < length col -> w <= S i -> k < w ->
  w <= count_valid (window_at w (prep_values col) i) ->
  nth k (window_at w (prep_values col) i) NaN = nth (S i - w + k) col NaN.
Proof.
  intros Hi Hw Hk Hfull.
  assert (Hlen : length (window_at w (prep_values col) i) = w).
  { rewrite length_window_at by (rewrite length_prep_values; assumption). lia. }
  assert (Hall : forallb notna (window_at w (prep_values col) i) = true).
  { apply filter_length_forallb.
    pose proof (count_valid_le (window_at w (prep_values col) i)) as Hle.
    unfold count_valid in *. lia. }
  rewrite forallb_forall in Hall.
  assert (Hna : notna (nth k (window_at w (prep_values col) i) NaN) = true).
  { apply Hall. apply nth_In. lia. }
  rewrite window_at_nth in * by assumption.
  apply prep_values_nth. assumption.
Qed.

(* ================================================================== *)
(** ** MomentumCalculator: the score *)

(** On a window of 252 rows, [iloc[-1]], [iloc[-21]], [iloc[-63]],
    [iloc[-126]] and [iloc[-252]] are its rows 251, 231, 189, 126 and 0. *)
Lemma calculate_momentum_window (win : list num) :
  length win = 252 ->
  calculate_momentum win
  = blend (nth 251 win NaN) (nth 231 win NaN) (nth 189 win NaN)
          (nth 126 win NaN) (nth 0 win NaN).
Proof.
  intros H. unfold calculate_momentum, iloc_neg, blend. rewrite H.
  reflexivity.
Qed.

Lemma full_history_score (data : DataFrame) (i j : nat) :
  i < length (rows data) -> j < length (columns data) ->
  252 <= trailing_observations (col_values data j) i ->
  cell (momentum data) i j
  = blend (cell data i j) (cell data (i - 20) j) (cell data (i - 62) j)
          (cell data (i - 125) j) (cell data (i - 251) j).
Proof.
  intros Hi Hj Ht.
  assert (Hc : i < length (col_values data j))
    by (rewrite length_col_values; assumption).
  rewrite momentum_cell by assumption.
  rewrite rolling_apply_nth by assumption.
  apply (window_full_iff 252 (col_values data j) i Hc) in Ht.
  pose proof (count_valid_le (window_at 252 (prep_values (col_values data j)) i))
    as Hle.
  pose proof (length_window_at 252 (prep_values (col_values data j)) i) as Hlen.
  rewrite length_prep_values in Hlen. specialize (Hlen Hc).
  assert (Hw : 252 <= S i) by lia.
  assert (E : (count_valid (window_at 252 (prep_values (col_values data j)) i)
               <? 252) = false)
    by (apply Nat.ltb_ge; assumption).
  rewrite E.
  rewrite calculate_momentum_window by lia.
  rewrite !(window_full_nth 252 (col_values data j) i) by (assumption || lia).
  rewrite !col_values_nth.
  replace (S i - 252 + 251) with i by lia.
  replace (S i - 252 + 231) with (i - 20) by lia.
  replace (S i - 252 + 189) with (i - 62) by lia.
  replace (S i - 252 + 126) with (i - 125) by lia.
  replace (S i - 252 + 0) with (i - 251) by lia.
  reflexivity.
Qed.


(** C2, as worded, fails on the table [ramp]: at its last row (row 252)
    the first asset has 253 trailing observations, and its score is not
    the blend of the prices 21, 63, 126 and 252 rows back. *)
Lemma score_spec_fails_on_ramp : ~ score_spec Tables.ramp 252 0.
Proof.
  unfold score_spec. intros H.
  assert (H1 : 252 < length (rows Tables.ramp)) by (vm_compute; lia).
  assert (H2 : 0 < length (columns Tables.ramp)) by (vm_compute; lia).
  assert (H3 : 252 <= trailing_observations (col_values Tables.ramp 0) 252)
    by (vm_compute; lia).
  specialize (H H1 H2 H3). revert H.
  apply num_eqb_neq. vm_compute. reflexivity.
Qed.

(** C2 (amended): for an asset and a row with at least 252 trailing
    observations, the score is 12*(p0/p1 - 1) + 4*(p0/p3 - 1)
    + 2*(p0/p6 - 1) + (p0/p12 - 1), where p0 is the price of the row and
    p1, p3, p6, p12 are the prices 20, 62, 125 and 251 rows before it:
    the 21st, 63rd, 126th and 252nd most recent observations, the row of
    p0 counting as the first. *)
Theorem momentum_score_offsets (data : DataFrame) (i j : nat) :
  i < length (rows data) -> j < length (columns data) ->
  252 <= trailing_observations (col_values data j) i ->
  let p0 := cell data i j in
  let p1 := cell data (i - 20) j in
  let p3 := cell data (i - 62) j in
  let p6 := cell data (i - 125) j in
  let p12 := cell data (i - 251) j in
  cell (momentum data) i j
  = (Fin 12 * (p0 / p1 - Fin 1) + Fin 4 * (p0 / p3 - Fin 1)
     + Fin 2 * (p0 / p6 - Fin 1) + (p0 / p12 - Fin 1))%num.
Proof.
  intros Hi Hj Ht. cbv zeta.
  rewrite (full_history_score data i j Hi Hj Ht). reflexivity.
Qed.

Lemma momentum_score_offsets_witness :
  cell (momentum Tables.ramp) 252 0
  = (Fin 12 * (Fin 253 / Fin 233 - Fin 1) + Fin 4 * (Fin 253 / Fin 191 - Fin 1)
     + Fin 2 * (Fin 253 / Fin 128 - Fin 1) + (Fin 253 / Fin 2 - Fin 1))%num.
Proof.
  assert (H1 : 252 < length (rows Tables.ramp)) by (vm_compute; lia).
  assert (H2 : 0 < length (columns Tables.ramp)) by (vm_compute; lia).
  assert (H3 : 252 <= trailing_observations (col_values Tables.ramp 0) 252)
    by (vm_compute; lia).
  exact (momentum_score_offsets Tables.ramp 252 0 H1 H2 H3).
Defined.

(* ================================================================== *)
(** ** MomentumCalculator on binary64 *)

Section Binary64Score.
Import Floats.
Import Binary64.
Local Open Scope float_scope.

Lemma length_prep_values64 (col : list float) :
  length (prep_values col) = length col.
Proof. unfold prep_values. apply length_map. Qed.

(** A value the window counts as an observation is the price itself. *)
Lemma prep_values_nth64 (col : list float) (k : nat) :
  notna (nth k (prep_values col) nan) = true ->
  nth k (prep_values col) nan = nth k col nan.
Proof.
  unfold prep_values.
  set (h := fun x : float => if PrimFloat.is_infinity x then nan else x).
  change nan with (h nan) at 1 2. rewrite map_nth. unfold h.
  destruct (PrimFloat.is_infinity (nth k col nan)); [|reflexivity].
  intros H. vm_compute in H. discriminate.
Qed.

Lemma rolling_apply_nth64 (w : nat) (f : list float -> float)
  (col : list float) (i : nat) :
  (i < length col)%nat ->
  nth i (rolling_apply w f col) nan
  = if (count_valid (window_at w (prep_values col) i) <? w)%nat then nan
    else f (window_at w (prep_values col) i).
Proof.
  intros H. unfold rolling_apply.
  rewrite nth_map_seq by (rewrite length_prep_values64; assumption).
  reflexivity.
Qed.

Lemma col_values_nth64 (data : DataFrame) (j k : nat) :
  nth k (col_values data j) nan = cell data k j.
Proof.
  unfold col_values, cell.
  set (h := fun r : Timestamp * list float => nth j (snd r) nan).
  destruct (Nat.lt_ge_cases k (length (rows data))) as [Hk | Hk].
  - rewrite (nth_indep _ nan (h (mkdate 0 0 0, [])))
      by (rewrite length_map; assumption).
    rewrite map_nth. reflexivity.
  - rewrite nth_overflow by (rewrite length_map; assumption).
    rewrite (nth_overflow (rows data)) by assumption.
    cbn [snd]. destruct j; reflexivity.
Qed.

Lemma length_col_values64 (data : DataFrame) (j : nat) :
  length (col_values data j) = length (rows data).
Proof. unfold col_values. apply length_map. Qed.

(** A cell of the momentum table is the rolling score of its column. *)
Lemma momentum_cell64 (data : DataFrame) (i j : nat) :
  (i < length (rows data))%nat -> (j < length (columns data))%nat ->
  cell (momentum data) i j
  = nth i (rolling_apply 252 calculate_momentum (col_values data j)) nan.
Proof.
  intros Hi Hj. unfold cell, momentum, rolling_apply_df. cbn [rows].
  set (cols := map (fun j => rolling_apply 252 calculate_momentum
                                (col_values data j))
                   (seq 0 (length (columns data)))).
  set (g := fun ir : nat * (Timestamp * list float) =>
              (fst (snd ir), map (fun c => nth (fst ir) c nan) cols)).
  rewrite (nth_indep _ (mkdate 0 0 0, []) (g (0%nat, (mkdate 0 0 0, []))))
    by (rewrite length_map, length_combine, length_seq; lia).
  rewrite map_nth.
  rewrite combine_nth by (rewrite length_seq; reflexivity).
  rewrite seq_nth by assumption.
  unfold g. cbn [fst snd Nat.add].
  set (h := fun c : list float => nth i c nan).
  rewrite (nth_indep _ nan (h []))
    by (rewrite length_map; unfold cols; rewrite length_map, length_seq;
        assumption).
  rewrite map_nth. unfold h, cols. rewrite nth_map_seq by assumption.
  reflexivity.
Qed.

Lemma length_window_at64 (w : nat) (col : list float) (i : nat) :
  (i < length col)%nat -> length (window_at w col i) = Nat.min w (S i).
Proof.
  intros H. unfold window_at. rewrite length_skipn, length_firstn. lia.
Qed.

Lemma window_at_nth64 (w : nat) (col : list float) (i k : nat) :
  (w <= S i)%nat -> (k < w)%nat ->
  nth k (window_at w col i) nan = nth (S i - w + k) col nan.
Proof.
  intros Hw Hk. unfold window_at. rewrite nth_skipn, nth_firstn.
  assert (E : (S i - w + k <? S i)%nat = true) by (apply Nat.ltb_lt; lia).
  rewrite E. reflexivity.
Qed.

Lemma count_valid_le64 (l : list float) : (count_valid l <= length l)%nat.
Proof.
  unfold count_valid. induction l as [|x l IH]; simpl; [lia|].
  destruct (notna x); simpl; lia.
Qed.

Lemma count_valid_all64 (l : list float) :
  forallb notna l = true -> count_valid l = length l.
Proof.
  unfold count_valid. induction l as [|x l IH]; simpl; [reflexivity|].
  intros H. apply andb_true_iff in H. destruct H as [-> H]. simpl.
  now rewrite IH.
Qed.

Lemma count_valid_some_nan64 (l : list float) :
  forallb notna l = false -> (count_valid l < length l)%nat.
Proof.
  induction l as [|x l IH]; simpl; [discriminate|].
  intros H. pose proof (count_valid_le64 l) as Hle. unfold count_valid in *.
  simpl. destruct (notna x); simpl in *; [apply IH in H|]; lia.
Qed.

Lemma run_length_le64 (l : list float) : (run_length l <= length l)%nat.
Proof.
  induction l as [|x l IH]; simpl; [lia|]. destruct (notna x); lia.
Qed.

Lemma run_length_app_all64 (l1 l2 : list float) :
  forallb notna l1 = true ->
  run_length (l1 ++ l2) = (length l1 + run_length l2)%nat.
Proof.
  induction l1 as [|x l1 IH]; simpl; [reflexivity|].
  intros H. apply andb_true_iff in H. destruct H as [-> H]. now rewrite IH.
Qed.

Lemma run_length_app_break64 (l1 l2 : list float) :
  forallb notna l1 = false -> (run_length (l1 ++ l2) < length l1)%nat.
Proof.
  induction l1 as [|x l1 IH]; simpl; [discriminate|].
  destruct (notna x); simpl; intros H; [apply IH in H|]; lia.
Qed.

(** The window holds [w] observations exactly when the run of
    observations that ends at row [i] is at least [w] long. *)
Lemma window_full_run64 (w : nat) (col : list float) (i : nat) :
  (i < length col)%nat ->
  ((w <= count_valid (window_at w col i))%nat
   <-> (w <= run_length (rev (firstn (S i) col)))%nat).
Proof.
  intros Hi.
  pose proof (length_window_at64 w col i Hi) as Hlen.
  pose proof (count_valid_le64 (window_at w col i)) as Hle.
  assert (Hsplit : rev (firstn (S i) col)
                   = rev (window_at w col i)
                     ++ rev (firstn (S i - w) (firstn (S i) col))).
  { unfold window_at. rewrite <- rev_app_distr, firstn_skipn. reflexivity. }
  assert (HL : length (firstn (S i) col) = S i)
    by (rewrite length_firstn; lia).
  rewrite Hsplit.
  destruct (forallb notna (window_at w col i)) eqn:Hall.
  - rewrite run_length_app_all64 by (rewrite forallb_rev; assumption).
    rewrite length_rev, (count_valid_all64 _ Hall), Hlen.
    split; intros H; [lia|].
    pose proof (run_length_le64 (rev (firstn (S i - w) (firstn (S i) col))))
      as Hr.
    rewrite length_rev, length_firstn, HL in Hr. lia.
  - pose proof (count_valid_some_nan64 _ Hall) as Hlt.
    pose proof (run_length_app_break64 (rev (window_at w col i))
                  (rev (firstn (S i - w) (firstn (S i) col)))) as Hb.
    rewrite forallb_rev, length_rev in Hb. specialize (Hb Hall).
    split; intros H; lia.
Qed.

Lemma window_full_iff64 (w : nat) (col : list float) (i : nat) :
  (i < length col)%nat ->
  ((w <= count_valid (window_at w (prep_values col) i))%nat
   <-> (w <= trailing_observations col i)%nat).
Proof.
  intros Hi. unfold trailing_observations.
  apply window_full_run64. rewrite length_prep_values64. assumption.
Qed.

(** Every row of a full window is an observation. *)
Lemma window_full_nth64 (w : nat) (col : list float) (i k : nat) :
  (i < length col)%nat -> (w <= S i)%nat -> (k < w)%nat ->
  (w <= count_valid (window_at w (prep_values col) i))%nat ->
  nth k (window_at w (prep_values col) i) nan = nth (S i - w + k) col nan.
Proof.
  intros Hi Hw Hk Hfull.
  assert (Hlen : length (window_at w (prep_values col) i) = w).
  { rewrite length_window_at64 by (rewrite length_prep_values64; assumption).
    lia. }
  assert (Hall : forallb notna (window_at w (prep_values col) i) = true).
  { apply filter_length_forallb.
    pose proof (count_valid_le64 (window_at w (prep_values col) i)) as Hle.
    unfold count_valid in *. lia. }
  rewrite forallb_forall in Hall.
  assert (Hna : notna (nth k (window_at w (prep_values col) i) nan) = true).
  { apply Hall. apply nth_In. lia. }
  rewrite window_at_nth64 in * by assumption.
  apply prep_values_nth64. assumption.
Qed.

Lemma calculate_momentum_window64 (win : list float) :
  length win = 252%nat ->
  calculate_momentum win
  = 12 * (nth 251 win nan / nth 231 win nan - 1)
    + 4 * (nth 251 win nan / nth 189 win nan - 1)
    + 2 * (nth 251 win nan / nth 126 win nan - 1)
    + (nth 251 win nan / nth 0 win nan - 1).
Proof.
  intros H. unfold calculate_momentum, iloc_neg. rewrite H. reflexivity.
Qed.

Lemma short_history_score64 (data : DataFrame) (i j : nat) :
  (i < length (rows data))%nat -> (j < length (columns data))%nat ->
  (trailing_observations (col_values data j) i < 252)%nat ->
  cell (momentum data) i j = nan.
Proof.
  intros Hi Hj Ht. rewrite momentum_cell64 by assumption.
  rewrite rolling_apply_nth64 by (rewrite length_col_values64; assumption).
  assert (E : (count_valid (window_at 252 (prep_values (col_values data j)) i)
               <? 252)%nat = true).
  { apply Nat.ltb_lt.
    destruct (Nat.lt_ge_cases
                (count_valid (window_at 252 (prep_values (col_values data j)) i))
                252)
      as [Hlt | Hge]; [assumption|].
    apply window_full_iff64 in Hge; [lia|].
    rewrite length_col_values64. assumption. }
  rewrite E. reflexivity.
Qed.

Lemma full_history_score64 (data : DataFrame) (i j : nat) :
  (i < length (rows data))%nat -> (j < length (columns data))%nat ->
  (252 <= trailing_observations (col_values data j) i)%nat ->
  cell (momentum data) i j
  = 12 * (cell data i j / cell data (i - 20) j - 1)
    + 4 * (cell data i j / cell data (i - 62) j - 1)
    + 2 * (cell data i j / cell data (i - 125) j - 1)
    + (cell data i j / cell data (i - 251) j - 1).
Proof.
  intros Hi Hj Ht.
  assert (Hc : (i < length (col_values data j))%nat)
    by (rewrite length_col_values64; assumption).
  rewrite momentum_cell64 by assumption.
  rewrite rolling_apply_nth64 by assumption.
  apply (window_full_iff64 252 (col_values data j) i Hc) in Ht.
  pose proof (count_valid_le64
                (window_at 252 (prep_values (col_values data j)) i)) as Hle.
  pose proof (length_window_at64 252 (prep_values (col_values data j)) i)
    as Hlen.
  rewrite length_prep_values64 in Hlen. specialize (Hlen Hc).
  assert (Hw : (252 <= S i)%nat) by lia.
  assert (E : (count_valid (window_at 252 (prep_values (col_values data j)) i)
               <? 252)%nat = false)
    by (apply Nat.ltb_ge; assumption).
  rewrite E.
  rewrite calculate_momentum_window64 by lia.
  rewrite !(window_full_nth64 252 (col_values data j) i) by (assumption || lia).
  rewrite !col_values_nth64.
  replace (S i - 252 + 251)%nat with i by lia.
  replace (S i - 252 + 231)%nat with (i - 20)%nat by lia.
  replace (S i - 252 + 189)%nat with (i - 62)%nat by lia.
  replace (S i - 252 + 126)%nat with (i - 125)%nat by lia.
  replace (S i - 252 + 0)%nat with (i - 251)%nat by lia.
  reflexivity.
Qed.

(** C6, as worded, fails on the table [spike] in binary64: at its last
    row the first asset has 252 trailing observations and its four price
    ratios are finite (each is 2^1023), yet twelve times the first
    overflows and the score is [+inf]. *)
Lemma finite_score_spec_fails_on_spike :
  ~ finite_score_spec spike 251 0.
Proof.
  unfold finite_score_spec. intros H.
  assert (H1 : (251 < length (rows spike))%nat) by (vm_compute; lia).
  assert (H2 : (0 < length (columns spike))%nat) by (vm_compute; lia).
  assert (H3 : (252 <= trailing_observations (col_values spike 0) 251)%nat)
    by (vm_compute; lia).
  specialize (H H1 H2 H3).
  assert (E : is_finite (cell (momentum spike) 251 0) = false)
    by (vm_compute; reflexivity).
  rewrite E in H.
  assert (F : false = true).
  { apply H; vm_compute; reflexivity. }
  discriminate F.
Qed.

(** C6 (amended), on binary64: with fewer than 252 trailing observations
    (consecutive prices ending at the row) the score is [NaN], the
    undefined value: it is not zero, and nothing raises; with 252 or more
    it is the binary64 value of 12*(p0/p1 - 1) + 4*(p0/p3 - 1)
    + 2*(p0/p6 - 1) + (p0/p12 - 1) over the prices of the window. *)
Theorem score_from_252_observations (data : DataFrame) (i j : nat) :
  (i < length (rows data))%nat -> (j < length (columns data))%nat ->
  ((trailing_observations (col_values data j) i < 252)%nat ->
   cell (momentum data) i j = nan
   /\ is_nan (cell (momentum data) i j) = true
   /\ PrimFloat.eqb (cell (momentum data) i j) 0 = false)
  /\ ((252 <= trailing_observations (col_values data j) i)%nat ->
      cell (momentum data) i j
      = 12 * (cell data i j / cell data (i - 20) j - 1)
        + 4 * (cell data i j / cell data (i - 62) j - 1)
        + 2 * (cell data i j / cell data (i - 125) j - 1)
        + (cell data i j / cell data (i - 251) j - 1)).
Proof.
  intros Hi Hj. split.
  - intros Ht. rewrite (short_history_score64 data i j Hi Hj Ht).
    repeat split; reflexivity.
  - intros Ht. exact (full_history_score64 data i j Hi Hj Ht).
Qed.

Lemma score_from_252_observations_witness :
  cell (momentum spike) 250 0 = nan
  /\ cell (momentum spike) 251 0
     = 12 * (0x1p+1023 / 1 - 1) + 4 * (0x1p+1023 / 1 - 1)
       + 2 * (0x1p+1023 / 1 - 1) + (0x1p+1023 / 1 - 1).
Proof.
  assert (H1 : (250 < length (rows spike))%nat) by (vm_compute; lia).
  assert (H1' : (251 < length (rows spike))%nat) by (vm_compute; lia).
  assert (H2 : (0 < length (columns spike))%nat) by (vm_compute; lia).
  split.
  - refine (proj1 (proj1 (score_from_252_observations spike 250 0 H1 H2) _)).
    vm_compute. lia.
  - refine (proj2 (score_from_252_observations spike 251 0 H1' H2) _).
    vm_compute. lia.
Defined.

End Binary64Score.

(* ================================================================== *)
(** ** Price tables with fewer than 252 rows *)

Lemma short_column_rolls_to_NaN (col : list num) (i : nat) :
  length col < 252 ->
  nth i (rolling_apply 252 calculate_momentum col) NaN = NaN.
Proof.
  intros Hlen.
  destruct (Nat.lt_ge_cases i (length col)) as [Hi | Hi].
  - rewrite rolling_apply_nth by assumption.
    pose proof (count_valid_le (window_at 252 (prep_values col) i)) as Hle.
    rewrite length_window_at in Hle by (rewrite length_prep_values; assumption).
    assert (E : (count_valid (window_at 252 (prep_values col) i) <? 252) = true)
      by (apply Nat.ltb_lt; lia).
    rewrite E. reflexivity.
  - apply nth_overflow. unfold rolling_apply.
    rewrite length_map, length_seq, length_prep_values. assumption.
Qed.

Lemma short_table_undefined (data : DataFrame) :
  length (rows data) < 252 -> entirely_undefined (momentum data) = true.
Proof.
  intros Hlen. unfold entirely_undefined.
  apply forallb_forall. intros r Hr.
  destruct (momentum_row_inv data r Hr) as [i [_ E]]. rewrite E.
  apply forallb_forall. intros x Hx.
  apply in_map_iff in Hx. destruct Hx as [c [<- Hc]].
  apply in_map_iff in Hc. destruct Hc as [j [<- _]].
  rewrite short_column_rolls_to_NaN; [reflexivity|].
  rewrite length_col_values. assumption.
Qed.

(* ================================================================== *)
(** ** Forward fill (line 67) *)

Lemma pad_cells_nth (p c : list num) (j : nat) :
  j < length c ->
  nth j (pad_cells p c) NaN
  = if is_nan (nth j c NaN) then nth j p NaN else nth j c NaN.
Proof.
  revert c j. induction p as [|x p IH]; intros c j Hj.
  - assert (E : pad_cells [] c = c) by (destruct c; reflexivity).
    rewrite E, nth_nil_NaN. destruct (nth j c NaN); reflexivity.
  - destruct c as [|y c]; simpl in Hj; [lia|].
    destruct j as [|j]; simpl.
    + destruct (is_nan y); reflexivity.
    + apply IH. lia.
Qed.

Lemma ffill_from_nth {I} (rs : list (I * list num)) (prev : list num) (k : nat) :
  k < length rs ->
  nth k (map snd (ffill_from prev rs)) []
  = pad_cells (nth k (prev :: map snd (ffill_from prev rs)) [])
              (nth k (map snd rs) []).
Proof.
  revert prev k. induction rs as [|[i r] rs IH]; intros prev k Hk; simpl in Hk;
    [lia|].
  destruct k as [|k]; [reflexivity|].
  cbn [ffill_from map snd nth]. rewrite IH by lia. reflexivity.
Qed.

Lemma cell_as_nth (df : DataFrame) (i j : nat) :
  cell df i j = nth j (nth i (map snd (rows df)) []) NaN.
Proof.
  unfold cell.
  change (@nil num) with (snd (mkdate 0 0 0, @nil num)) at 2.
  rewrite map_nth. reflexivity.
Qed.

Lemma ffill_cell_0 (df : DataFrame) (j : nat) :
  cell (fillna_ffill df) 0 j = cell df 0 j.
Proof.
  unfold cell, fillna_ffill, ffill. cbn [rows].
  destruct (rows df) as [|[d r] rs]; reflexivity.
Qed.

(** A filled cell is the observation of its row, or else the filled cell
    one row up. *)
Lemma ffill_cell_S (df : DataFrame) (i j : nat) :
  S i < length (rows df) ->
  j < length (snd (nth (S i) (rows df) (mkdate 0 0 0, []))) ->
  cell (fillna_ffill df) (S i) j
  = if is_nan (cell df (S i) j) then cell (fillna_ffill df) i j
    else cell df (S i) j.
Proof.
  intros Hi Hj. rewrite !cell_as_nth.
  change (@nil num) with (snd (mkdate 0 0 0, @nil num)) in Hj.
  rewrite <- map_nth in Hj.
  unfold fillna_ffill, ffill in *. cbn [rows] in *.
  destruct (rows df) as [|[d r] rs]; simpl in Hi; [lia|].
  cbn [map snd nth] in *.
  rewrite ffill_from_nth by lia.
  rewrite pad_cells_nth by assumption. reflexivity.
Qed.

Lemma ffill_index {I} (rs : list (I * list num)) :
  map fst (ffill rs) = map fst rs.
Proof.
  assert (G : forall prev, map fst (ffill_from prev rs) = map fst rs).
  { induction rs as [|[i r] rs IH]; intros prev; simpl; [reflexivity|].
    now rewrite IH. }
  destruct rs as [|[i r] rs]; simpl; [reflexivity|].
  f_equal. clear G.
  revert r. induction rs as [|[i' r'] rs IH]; intros r; simpl; [reflexivity|].
  now rewrite IH.
Qed.

Lemma well_formed_row (df : DataFrame) (i : nat) :
  well_formed df -> i < length (rows df) ->
  length (snd (nth i (rows df) (mkdate 0 0 0, []))) = length (columns df).
Proof.
  unfold well_formed. intros Hwf Hi. rewrite Forall_forall in Hwf.
  apply Hwf. apply nth_In. assumption.
Qed.

(** X3: forward fill leaves no gap: in a table with one cell per column
    in every row, once an asset has a price in the filled table it has
    one in every later row. *)
Theorem forward_fill_no_gap (df : DataFrame) (i k j : nat) :
  well_formed df -> j < length (columns df) ->
  i <= k -> k < length (rows df) ->
  notna (cell (fillna_ffill df) i j) = true ->
  notna (cell (fillna_ffill df) k j) = true.
Proof.
  intros Hwf Hj Hik Hk Hi.
  induction Hik as [|k Hik IH]; [assumption|].
  rewrite ffill_cell_S; [| assumption | rewrite well_formed_row; assumption].
  destruct (is_nan (cell df (S k) j)) eqn:E.
  - apply IH. lia.
  - unfold notna. rewrite E. reflexivity.
Qed.

Lemma forward_fill_no_gap_witness :
  notna (cell (fillna_ffill Tables.staggered) 300 1) = true.
Proof.
  refine (forward_fill_no_gap Tables.staggered 31 300 1 _ _ _ _ _).
  - unfold well_formed. apply Forall_forall. intros [d v] Hr.
    unfold Tables.staggered, Tables.table in Hr. cbn [rows] in Hr.
    apply in_combine_r in Hr. apply in_map_iff in Hr.
    destruct Hr as [n [<- _]]. reflexivity.
  - vm_compute. lia.
  - lia.
  - vm_compute. lia.
  - vm_compute. reflexivity.
Defined.

(** X4: forward fill keeps the index and the columns, and every
    observation of the table: a cell that holds a value is unchanged. *)
Theorem forward_fill_keeps_observations (df : DataFrame) :
  index (fillna_ffill df) = index df
  /\ columns (fillna_ffill df) = columns df
  /\ (forall i j, notna (cell df i j) = true ->
        cell (fillna_ffill df) i j = cell df i j).
Proof.
  split; [apply ffill_index|]. split; [reflexivity|].
  intros i j Hna. destruct i as [|i]; [apply ffill_cell_0|].
  destruct (Nat.lt_ge_cases (S i) (length (rows df))) as [Hi | Hi].
  - destruct (Nat.lt_ge_cases j
                (length (snd (nth (S i) (rows df) (mkdate 0 0 0, [])))))
      as [Hj | Hj].
    + rewrite ffill_cell_S by assumption.
      unfold notna in Hna. apply negb_true_iff in Hna. rewrite Hna. reflexivity.
    + unfold cell in Hna. rewrite nth_overflow in Hna by assumption.
      discriminate.
  - unfold cell in Hna. rewrite (nth_overflow (rows df)) in Hna by assumption.
    cbn [snd] in Hna. rewrite nth_nil_NaN in Hna. discriminate.
Qed.

(* ================================================================== *)
(** ** RebalanceScheduler: what the labels are *)

Lemma month_end_is_month_end (k : nat) : is_month_end (month_end k).
Proof.
  unfold is_month_end, month_end; cbn [year month day].
  pose proof (Nat.mod_upper_bound k 12). split; [lia | reflexivity].
Qed.

Lemma resample_M_index_inv (idx : list Timestamp) (d : Timestamp) :
  In d (resample_M_index idx) -> exists k, d = month_end k.
Proof.
  destruct idx as [|d0 idx]; simpl; [contradiction|].
  intros H. apply in_map_iff in H. destruct H as [k [<- _]]. eauto.
Qed.

(** X5: whatever the tables, the re-balancing dates are last calendar
    days of months, in strictly ascending order (so without repetition),
    and all strictly after the momentum start date when there is one. *)
Theorem rebalancing_dates_month_ends (data momentum : DataFrame) :
  Forall is_month_end (rebalancing_dates data momentum)
  /\ ascending (rebalancing_dates data momentum)
  /\ (forall s, momentum_start_date momentum = Some s ->
        Forall (date_lt s) (rebalancing_dates data momentum)).
Proof.
  split; [|split].
  - apply Forall_forall. intros d Hd.
    assert (Hin : In d (resample_M_index (index data))).
    { unfold rebalancing_dates in Hd.
      destruct (momentum_start_date momentum); [|assumption].
      apply filter_In in Hd. tauto. }
    destruct (resample_M_index_inv _ _ Hin) as [k ->].
    apply month_end_is_month_end.
  - unfold rebalancing_dates.
    destruct (momentum_start_date momentum).
    + apply ascending_filter, resample_M_index_ascending.
    + apply resample_M_index_ascending.
  - intros s Hs. unfold rebalancing_dates. rewrite Hs.
    apply Forall_forall. intros d Hd. apply filter_In in Hd.
    unfold date_lt. tauto.
Qed.

Lemma month_index_mono (a b : Timestamp) :
  1 <= month a <= 12 -> 1 <= month b <= 12 ->
  date_lt a b \/ a = b -> month_index a <= month_index b.
Proof.
  intros Ha Hb [Hlt | ->]; [|lia].
  unfold date_lt in Hlt. rewrite date_ltb_spec in Hlt.
  unfold month_index. lia.
Qed.

Lemma last_In {A} (l : list A) (d : A) : l <> [] -> In (last l d) l.
Proof.
  intros H. destruct (exists_last H) as [l' [x E]].
  rewrite E, last_last. apply in_or_app. right. left. reflexivity.
Qed.

Lemma ascending_last (l : list Timestamp) (d0 d : Timestamp) :
  ascending l -> In d l -> date_lt d (last l d0) \/ d = last l d0.
Proof.
  induction 1 as [|a l Hs IH Hall]; intros Hin; [contradiction|].
  destruct l as [|b l]; simpl in Hin.
  - destruct Hin as [-> | []]. right. reflexivity.
  - change (last (a :: b :: l) d0) with (last (b :: l) d0).
    destruct Hin as [<- | Hin].
    + rewrite Forall_forall in Hall. left. apply Hall.
      apply last_In. discriminate.
    + apply IH. assumption.
Qed.

Lemma month_end_of_index (d : Timestamp) :
  1 <= month d <= 12 ->
  year (month_end (month_index d)) = year d
  /\ month (month_end (month_index d)) = month d.
Proof.
  intros H. unfold month_end, month_index; cbn [year month day].
  pose proof (Nat.div_mod_eq (year d * 12 + (month d - 1)) 12).
  pose proof (Nat.mod_upper_bound (year d * 12 + (month d - 1)) 12).
  split; lia.
Qed.

(** X6: when the index of the price table is ascending, every month in
    which the table has a row gets its label: the candidate dates hold
    the last calendar day of that month. *)
Theorem every_traded_month_has_a_label (data : DataFrame) (d : Timestamp) :
  ascending (index data) ->
  Forall (fun x => 1 <= month x <= 12) (index data) ->
  In d (index data) ->
  exists e, In e (resample_M_index (index data))
            /\ year e = year d /\ month e = month d /\ is_month_end e.
Proof.
  intros Hasc Hval Hin.
  exists (month_end (month_index d)).
  rewrite Forall_forall in Hval.
  destruct (month_end_of_index d (Hval d Hin)) as [Ey Em].
  split; [|split; [assumption | split; [assumption|]]];
    [|apply month_end_is_month_end].
  destruct (index data) as [|d0 idx] eqn:E; [contradiction|].
  cbn [resample_M_index]. apply in_map. apply in_seq.
  assert (H0 : month_index d0 <= month_index d).
  { apply month_index_mono; [apply Hval; left; reflexivity | apply Hval; assumption |].
    inversion Hasc as [|a l Hs Hall]; subst.
    destruct Hin as [<- | Hin]; [right; reflexivity | left].
    rewrite Forall_forall in Hall. apply Hall. assumption. }
  assert (H1 : month_index d <= month_index (last (d0 :: idx) d0)).
  { apply month_index_mono.
    - apply Hval. assumption.
    - apply Hval. apply last_In. discriminate.
    - apply ascending_last; assumption. }
  lia.
Qed.

Lemma every_traded_month_has_a_label_witness :
  exists e, In e (resample_M_index (index Tables.april))
            /\ year e = 2017 /\ month e = 4 /\ is_month_end e.
Proof.
  refine (every_traded_month_has_a_label Tables.april (mkdate 2017 4 28) _ _ _).
  - unfold ascending. cbn. repeat constructor.
  - cbn. repeat constructor.
  - cbn. right. left. reflexivity.
Defined.

(* ================================================================== *)
(** ** PortfolioSimulator: what a run records *)

Section Recorded.

Variables (data momentum : DataFrame) (N : nat).

Lemma succeeds_rebalance (d : Timestamp) :
  succeeds data momentum N d = true ->
  exists top r, rebalance data momentum N d = Some (top, r).
Proof.
  unfold succeeds.
  destruct (rebalance data momentum N d) as [[top r]|]; [eauto | discriminate].
Qed.

Lemma rebalance_in_index (d : Timestamp) (top : list asset) (r : num) :
  rebalance data momentum N d = Some (top, r) -> In d (index momentum).
Proof.
  intros H. destruct (rebalance_selects data momentum N d top r H)
    as [row [Hloc _]].
  unfold loc in Hloc.
  destruct (find (fun r0 => date_eqb (fst r0) d) (rows momentum))
    as [r0|] eqn:Hf; [|discriminate].
  apply find_some in Hf. destruct Hf as [Hin Heq].
  apply date_eqb_eq in Heq. subst d. unfold index. apply in_map. assumption.
Qed.

Lemma run_dates (dates : list Timestamp) (st : State) :
  portfolio_dates (run data momentum N st dates)
  = portfolio_dates st ++ filter (succeeds data momentum N) dates.
Proof.
  revert st. unfold run.
  induction dates as [|d ds IH]; intros st; cbn [fold_left filter].
  - now rewrite app_nil_r.
  - rewrite IH. unfold step, succeeds.
    destruct (rebalance data momentum N d) as [[top r]|]; [|reflexivity].
    cbn [update portfolio_dates]. rewrite <- app_assoc. reflexivity.
Qed.

Lemma run_holdings (dates : list Timestamp) (st : State) :
  current_portfolio (run data momentum N st dates)
  = match rev (filter (succeeds data momentum N) dates) with
    | [] => current_portfolio st
    | d :: _ => option_map fst (rebalance data momentum N d)
    end.
Proof.
  revert st. unfold run.
  induction dates as [|d ds IH]; intros st; cbn [fold_left filter];
    [reflexivity|].
  rewrite IH. unfold step, succeeds at 2.
  destruct (rebalance data momentum N d) as [[top r]|] eqn:E; [|reflexivity].
  cbn [rev].
  destruct (rev (filter (succeeds data momentum N) ds)) as [|d' l].
  - cbn [app update current_portfolio]. rewrite E. reflexivity.
  - reflexivity.
Qed.

End Recorded.

(** X7: the dates a run records are exactly the dates that reach the
    update, in the order given; each of them is a date of the momentum
    table, and they are strictly ascending when the dates given are. *)
Theorem recorded_dates
  (data momentum : DataFrame) (N : nat) (initial_capital : num)
  (dates : list Timestamp) :
  let final := backtest data momentum N initial_capital dates in
  portfolio_dates final = filter (succeeds data momentum N) dates
  /\ map fst (history final) = portfolio_dates final
  /\ Forall (fun d => In d (index momentum)) (portfolio_dates final)
  /\ (ascending dates -> ascending (portfolio_dates final)).
Proof.
  intros final.
  assert (E : portfolio_dates final = filter (succeeds data momentum N) dates).
  { unfold final, backtest. rewrite run_dates. reflexivity. }
  split; [assumption|]. split; [|split].
  - pose proof (run_history data momentum N dates (init initial_capital)
                  eq_refl) as Hlen.
    fold (backtest data momentum N initial_capital dates) in Hlen.
    fold final in Hlen. unfold history.
    destruct (portfolio_values final) as [|v vs]; [discriminate|].
    cbn [tl length] in *.
    assert (G : forall (l1 : list Timestamp) (l2 : list num),
               length l1 = length l2 -> map fst (combine l1 l2) = l1).
    { induction l1 as [|a l1 IH]; intros [|b l2] H; simpl in *;
        try discriminate; [reflexivity|]. f_equal. apply IH. lia. }
    apply G. lia.
  - rewrite E. apply Forall_forall. intros d Hd.
    apply filter_In in Hd. destruct Hd as [_ Hs].
    destruct (succeeds_rebalance data momentum N d Hs) as [top [r Hr]].
    apply (rebalance_in_index data momentum N d top r Hr).
  - intros Hasc. rewrite E. apply ascending_filter. assumption.
Qed.

(** X8: after a run the holdings are the assets selected at the last
    recorded date, and there are no holdings exactly when nothing was
    recorded. *)
Theorem holdings_of_last_recorded_date
  (data momentum : DataFrame) (N : nat) (initial_capital : num)
  (dates : list Timestamp) :
  let final := backtest data momentum N initial_capital dates in
  current_portfolio final
  = match rev (portfolio_dates final) with
    | [] => None
    | d :: _ => option_map fst (rebalance data momentum N d)
    end
  /\ (current_portfolio final = None <-> portfolio_dates final = []).
Proof.
  intros final.
  assert (E : portfolio_dates final = filter (succeeds data momentum N) dates).
  { unfold final, backtest. rewrite run_dates. reflexivity. }
  assert (H : current_portfolio final
              = match rev (portfolio_dates final) with
                | [] => None
                | d :: _ => option_map fst (rebalance data momentum N d)
                end).
  { rewrite E. unfold final, backtest. rewrite run_holdings. reflexivity. }
  split; [assumption|].
  rewrite H. destruct (rev (portfolio_dates final)) as [|d l] eqn:Er.
  - split; [intros _ | reflexivity].
    apply (f_equal (@rev Timestamp)) in Er. rewrite rev_involutive in Er.
    assumption.
  - assert (Hin : In d (filter (succeeds data momentum N) dates)).
    { rewrite <- E. apply in_rev. rewrite Er. left. reflexivity. }
    apply filter_In in Hin. destruct Hin as [_ Hs].
    destruct (succeeds_rebalance data momentum N d Hs) as [top [r Hr]].
    rewrite Hr. split; [discriminate|].
    intros Hnil. rewrite Hnil in Er. discriminate.
Qed.

(* ================================================================== *)
(** ** Ranking: [nlargest] and [sort_values] *)

Lemma Qlt_bool_true (a b : Q) : Qlt_bool a b = true -> (a < b)%Q.
Proof.
  unfold Qlt_bool. rewrite negb_true_iff. intros H.
  apply Qnot_le_lt. intros Hle. apply Qle_bool_iff in Hle. congruence.
Qed.

Lemma Qlt_bool_false (a b : Q) : Qlt_bool a b = false -> (b <= a)%Q.
Proof.
  unfold Qlt_bool. rewrite negb_false_iff. apply Qle_bool_iff.
Qed.

Lemma Qlt_bool_false_intro (a b : Q) : (b <= a)%Q -> Qlt_bool a b = false.
Proof.
  unfold Qlt_bool. rewrite negb_false_iff. apply Qle_bool_iff.
Qed.

Lemma gtb_asym (x y : num) : gtb x y = true -> gtb y x = false.
Proof.
  destruct x as [a|[]|], y as [b|[]|]; simpl; try reflexivity;
    try discriminate.
  intros H. apply Qlt_bool_true in H. apply Qlt_bool_false_intro.
  apply Qlt_le_weak. assumption.
Qed.

(** [z <= y < x] gives [z <= x], where [<=] reads "is not greater". *)
Lemma gtb_le_lt_trans (x y z : num) :
  gtb x y = true -> gtb z y = false -> gtb z x = false.
Proof.
  destruct x as [a|[]|], y as [b|[]|], z as [c|[]|]; simpl;
    try reflexivity; try discriminate.
  intros H1 H2. apply Qlt_bool_true in H1. apply Qlt_bool_false in H2.
  apply Qlt_bool_false_intro. apply Qlt_le_weak.
  apply Qle_lt_trans with b; assumption.
Qed.

Lemma insert_desc_Forall {K} (P : K * num -> Prop) (x : K * num) (l : Series K) :
  P x -> Forall P l -> Forall P (insert_desc x l).
Proof.
  intros Hx Hl. induction Hl as [|y l Hy Hl IH]; simpl.
  - constructor; [assumption | constructor].
  - destruct (gtb (snd x) (snd y)); repeat constructor; assumption.
Qed.

Lemma insert_desc_descending {K} (x : K * num) (l : Series K) :
  descending l -> descending (insert_desc x l).
Proof.
  unfold descending. induction 1 as [|y l Hs IH Hall]; simpl.
  - repeat constructor.
  - destruct (gtb (snd x) (snd y)) eqn:E.
    + constructor; [constructor; assumption|].
      constructor; [apply gtb_asym; assumption|].
      rewrite Forall_forall in *. intros z Hz.
      apply gtb_le_lt_trans with (snd y); [assumption | apply Hall; assumption].
    + constructor; [assumption|].
      apply insert_desc_Forall; assumption.
Qed.

Lemma sort_desc_descending {K} (s : Series K) : descending (sort_desc s).
Proof.
  unfold sort_desc.
  assert (G : forall acc : Series K, descending acc ->
             descending (fold_left (fun acc x => insert_desc x acc) s acc)).
  { induction s as [|x s IH]; intros acc Hacc; simpl; [assumption|].
    apply IH. apply insert_desc_descending. assumption. }
  apply G. constructor.
Qed.

Lemma insert_desc_perm {K} (x : K * num) (l : Series K) :
  Permutation (insert_desc x l) (x :: l).
Proof.
  induction l as [|y l IH]; simpl; [reflexivity|].
  destruct (gtb (snd x) (snd y)); [reflexivity|].
  rewrite IH. apply perm_swap.
Qed.

Lemma sort_desc_perm {K} (s : Series K) : Permutation (sort_desc s) s.
Proof.
  unfold sort_desc.
  assert (G : forall acc : Series K,
             Permutation (fold_left (fun acc x => insert_desc x acc) s acc)
                         (s ++ acc)).
  { induction s as [|x s IH]; intros acc; simpl; [reflexivity|].
    rewrite IH, insert_desc_perm. apply Permutation_sym, Permutation_middle. }
  rewrite G, app_nil_r. reflexivity.
Qed.

Lemma descending_app {K} (l1 l2 : Series K) (a b : K * num) :
  descending (l1 ++ l2) -> In a l1 -> In b l2 -> gtb (snd b) (snd a) = false.
Proof.
  unfold descending. induction l1 as [|x l1 IH]; simpl; intros Hs Ha Hb;
    [contradiction|].
  inversion Hs as [|x' l' Hs' Hall]; subst.
  destruct Ha as [-> | Ha].
  - rewrite Forall_forall in Hall. apply Hall. apply in_or_app. right.
    assumption.
  - apply IH; assumption.
Qed.

Lemma firstn_In {A} (n : nat) (l : list A) (x : A) :
  In x (firstn n l) -> In x l.
Proof.
  intros H. rewrite <- (firstn_skipn n l). apply in_or_app. left. assumption.
Qed.

Lemma descending_firstn {K} (n : nat) (l : Series K) :
  descending l -> descending (firstn n l).
Proof.
  unfold descending. intros H. revert n.
  induction H as [|x l Hs IH Hall]; intros [|n]; simpl; try constructor.
  - apply IH.
  - rewrite Forall_forall in *. intros y Hy. apply Hall.
    apply (firstn_In n l y Hy).
Qed.

Lemma dropna_notna {K} (s : Series K) (kv : K * num) :
  In kv (dropna s) <-> In kv s /\ notna (snd kv) = true.
Proof. unfold dropna. apply filter_In. Qed.

(** What [nlargest] returns: at most [n] entries of the series, none of
    them [NaN], in descending order, and no entry left out has a value
    above an entry taken. *)
Lemma nlargest_spec {K} (n : nat) (s : Series K) :
  length (nlargest n s) <= n
  /\ descending (nlargest n s)
  /\ (forall kv, In kv (nlargest n s) -> In kv s /\ notna (snd kv) = true)
  /\ (forall kv a, In kv s -> notna (snd kv) = true ->
        ~ In kv (nlargest n s) -> In a (nlargest n s) ->
        gtb (snd kv) (snd a) = false).
Proof.
  unfold nlargest. split; [|split; [|split]].
  - rewrite length_firstn. lia.
  - apply descending_firstn, sort_desc_descending.
  - intros kv H. apply (proj1 (dropna_notna s kv)).
    apply (Permutation_in _ (sort_desc_perm (dropna s))).
    apply (firstn_In _ _ _ H).
  - intros kv a Hin Hna Hout Ha.
    assert (Hs : In kv (sort_desc (dropna s))).
    { apply (Permutation_in _ (Permutation_sym (sort_desc_perm (dropna s)))).
      apply (proj2 (dropna_notna s kv)). split; assumption. }
    rewrite <- (firstn_skipn n (sort_desc (dropna s))) in Hs.
    apply in_app_or in Hs. destruct Hs as [Hs | Hs]; [contradiction|].
    apply (descending_app (firstn n (sort_desc (dropna s)))
                          (skipn n (sort_desc (dropna s)))).
    + rewrite firstn_skipn. apply sort_desc_descending.
    + assumption.
    + assumption.
Qed.

(** X9: a date that is not skipped selects the highest scores of its
    row: the selected labels come with defined scores of that row, in
    descending order, and no asset with a defined score that is left out
    has a score above a selected one. *)
Theorem selection_takes_highest_scores
  (data momentum : DataFrame) (N : nat) (date : Timestamp)
  (top : list asset) (r : num) :
  rebalance data momentum N date = Some (top, r) ->
  exists row sel,
    loc momentum date = Some row
    /\ top = map fst sel
    /\ descending sel
    /\ (forall kv, In kv sel -> In kv row /\ notna (snd kv) = true)
    /\ (forall kv a, In kv row -> notna (snd kv) = true -> ~ In kv sel ->
          In a sel -> gtb (snd kv) (snd a) = false).
Proof.
  intros H.
  destruct (rebalance_selects data momentum N date top r H)
    as [row [Hloc [Htop _]]].
  exists row, (nlargest N (dropna row)).
  destruct (nlargest_spec N (dropna row)) as [_ [Hd [Hin Hdom]]].
  split; [assumption|]. split; [assumption|]. split; [assumption|]. split.
  - intros kv Hkv. destruct (Hin kv Hkv) as [Hk Hna].
    apply (proj1 (dropna_notna row kv)) in Hk. tauto.
  - intros kv a Hk Hna Hout Ha. apply Hdom; try assumption.
    apply (proj2 (dropna_notna row kv)). split; assumption.
Qed.

Lemma selection_takes_highest_scores_witness :
  exists row sel,
    loc (momentum Tables.rising) (mkdate 2020 9 30) = Some row
    /\ ["USEU.MI"%string] = map fst sel
    /\ descending sel
    /\ (forall kv, In kv sel -> In kv row /\ notna (snd kv) = true)
    /\ (forall kv a, In kv row -> notna (snd kv) = true -> ~ In kv sel ->
          In a sel -> gtb (snd kv) (snd a) = false).
Proof.
  assert (E : { r | rebalance Tables.rising (momentum Tables.rising) 1
                        (mkdate 2020 9 30) = Some (["USEU.MI"%string], r) }).
  { eexists. vm_compute. reflexivity. }
  destruct E as [r E].
  exact (selection_takes_highest_scores Tables.rising (momentum Tables.rising)
           1 (mkdate 2020 9 30) ["USEU.MI"%string] r E).
Defined.

(** X10: the latest ranking (shown twice, as current and as predicted
    top assets) raises on a momentum table without rows; otherwise it
    holds at most [N] entries of the last row, none of them [NaN], in
    descending order, and no defined score of the last row that is left
    out exceeds a listed one. *)
Theorem latest_ranking (momentum : DataFrame) (N : nat) :
  (last_momentum momentum N = None <-> rows momentum = [])
  /\ (forall s, last_momentum momentum N = Some s ->
        exists r, rows momentum <> []
          /\ r = last (rows momentum) (mkdate 0 0 0, [])
          /\ length s <= N
          /\ descending s
          /\ (forall kv, In kv s ->
                In kv (combine (columns momentum) (snd r))
                /\ notna (snd kv) = true)
          /\ (forall kv a, In kv (combine (columns momentum) (snd r)) ->
                notna (snd kv) = true -> ~ In kv s -> In a s ->
                gtb (snd kv) (snd a) = false)).
Proof.
  unfold last_momentum.
  destruct (rev (rows momentum)) as [|x t] eqn:Er.
  - apply (f_equal (@rev (Timestamp * list num))) in Er.
    rewrite rev_involutive in Er. simpl in Er.
    split; [tauto|]. intros s H. discriminate.
  - assert (El : rows momentum = rev t ++ [x]).
    { apply (f_equal (@rev (Timestamp * list num))) in Er.
      rewrite rev_involutive in Er. exact Er. }
    assert (Hne : rows momentum <> []).
    { rewrite El. destruct (rev t); discriminate. }
    split.
    + split; [discriminate | intros H; contradiction].
    + intros s H. injection H as <-.
      exists x.
      destruct (nlargest_spec N (dropna (combine (columns momentum) (snd x))))
        as [Hlen [Hd [Hin Hdom]]].
      split; [assumption|].
      split; [rewrite El, last_last; reflexivity|].
      split; [assumption|]. split; [assumption|]. split.
      * intros kv Hkv. destruct (Hin kv Hkv) as [Hk Hna].
        apply (proj1 (dropna_notna _ kv)) in Hk. tauto.
      * intros kv a Hk Hna Hout Ha. apply Hdom; try assumption.
        apply (proj2 (dropna_notna _ kv)). split; assumption.
Qed.

Lemma dropna_all_defined {K} (labels : list K) (vals : list num) :
  forallb notna vals = true ->
  dropna (combine labels vals) = combine labels vals
  /\ filter (fun kv : K * num => is_nan (snd kv)) (combine labels vals) = [].
Proof.
  revert vals. induction labels as [|k labels IH]; intros vals H;
    [split; reflexivity|].
  destruct vals as [|v vals]; [split; reflexivity|].
  simpl in H. apply andb_true_iff in H. destruct H as [Hv H].
  destruct (IH vals H) as [E1 E2].
  unfold dropna in *. simpl. rewrite Hv.
  unfold notna in Hv. apply negb_true_iff in Hv. rewrite Hv.
  rewrite E1, E2. split; reflexivity.
Qed.

(** X11: the initial display of line 90 raises exactly when no date has
    a score for every asset (the case line 102 guards against);
    otherwise it shows the scores of the momentum start date, all of
    them, none [NaN], in descending order. *)
Theorem initial_display (momentum : DataFrame) :
  (initial_momentum_values momentum = None
   <-> momentum_start_date momentum = None)
  /\ (forall s, initial_momentum_values momentum = Some s ->
        exists r, In r (rows momentum)
          /\ momentum_start_date momentum = Some (fst r)
          /\ Permutation s (combine (columns momentum) (snd r))
          /\ descending s
          /\ Forall (fun kv => notna (snd kv) = true) s).
Proof.
  unfold initial_momentum_values, momentum_start_date.
  destruct (dropna_rows (rows momentum)) as [|r rs] eqn:E.
  - split; [tauto|]. intros s H. discriminate.
  - split; [split; discriminate|].
    intros s H. injection H as <-.
    assert (Hr : In r (dropna_rows (rows momentum)))
      by (rewrite E; left; reflexivity).
    unfold dropna_rows in Hr. apply filter_In in Hr. destruct Hr as [Hin Hall].
    destruct (dropna_all_defined (columns momentum) (snd r) Hall) as [E1 E2].
    exists r. unfold sort_values_desc. rewrite E1, E2, app_nil_r.
    split; [assumption|]. split; [reflexivity|].
    split; [apply sort_desc_perm|]. split; [apply sort_desc_descending|].
    apply Forall_forall. intros [k v] Hkv.
    apply (Permutation_in _ (sort_desc_perm _)) in Hkv.
    apply in_combine_r in Hkv. rewrite forallb_forall in Hall.
    apply Hall. assumption.
Qed.

(* ================================================================== *)
(** ** The holding window (lines 120-124) *)

Lemma days_in_month_ge (y m : nat) : 28 <= days_in_month y m.
Proof.
  unfold days_in_month.
  do 12 (destruct m as [|m]; [try lia; destruct (leap y); lia|]).
  lia.
Qed.

Lemma date_leb_iff (a b : Timestamp) :
  date_leb a b = true <->
  ~ (year b < year a \/
     (year b = year a /\
      (month b < month a \/ (month b = month a /\ day b < day a)))).
Proof.
  unfold date_leb. rewrite negb_true_iff, <- date_ltb_spec.
  destruct (date_ltb b a); split; congruence.
Qed.

Lemma window_of_month_end (date d : Timestamp) :
  is_month_end date ->
  1 <= day d <= days_in_month (year d) (month d) ->
  date_leb (minus_MonthBegin date) d && date_leb d date
  = (year d =? year date) && (month d =? month date).
Proof.
  intros [Hm Hd] Hv.
  pose proof (days_in_month_ge (year date) (month date)) as Hge.
  assert (E : minus_MonthBegin date = mkdate (year date) (month date) 1).
  { unfold minus_MonthBegin.
    destruct (day date =? 1) eqn:E1; [|reflexivity].
    apply Nat.eqb_eq in E1. lia. }
  rewrite E. apply eq_true_iff_eq.
  rewrite !andb_true_iff, !date_leb_iff, !Nat.eqb_eq. cbn [year month day].
  split.
  - intros [H1 H2]. split; lia.
  - intros [Hy Hmo]. rewrite Hy, Hmo in Hv. split; lia.
Qed.

(** X12: for a date that is the last calendar day of its month, the
    holding window is that calendar month: its rows are the rows of the
    price table dated in the month of the date, none from the month
    before. *)
Theorem holding_window_is_the_month
  (data : DataFrame) (date : Timestamp) (top : list asset) :
  is_month_end date ->
  Forall (fun d => 1 <= day d <= days_in_month (year d) (month d))
         (index data) ->
  map fst (month_data data date top)
  = map fst (rows_of_month data (year date) (month date)).
Proof.
  intros Hend Hval. unfold month_data, rows_of_month.
  rewrite map_map. cbn [fst]. f_equal.
  apply filter_ext_in. intros r Hr.
  apply window_of_month_end; [assumption|].
  rewrite Forall_forall in Hval. apply Hval.
  unfold index. apply in_map. assumption.
Qed.

Lemma holding_window_is_the_month_witness :
  map fst (month_data Tables.april (mkdate 2017 4 30) ["USEU.MI"%string])
  = map fst (rows_of_month Tables.april 2017 4).
Proof.
  refine (holding_window_is_the_month Tables.april (mkdate 2017 4 30)
            ["USEU.MI"%string] _ _).
  - split; [cbn; lia | reflexivity].
  - cbn. repeat (constructor; [vm_compute; lia|]). constructor.
Defined.

Lemma length_ffill {I} (rs : list (I * list num)) :
  length (ffill rs) = length rs.
Proof.
  rewrite <- (length_map fst (ffill rs)), ffill_index. apply length_map.
Qed.

Lemma length_pct_from {I} (rs : list (I * list num)) (prev : list num) :
  length (pct_from prev rs) = length rs.
Proof.
  revert prev. induction rs as [|[i r] rs IH]; intros prev; simpl;
    [reflexivity|]. now rewrite IH.
Qed.

Lemma ffill_first_row {I} (rs : list (I * list num)) (i : I) (r : list num)
  (rest : list (I * list num)) :
  ffill rs = (i, r) :: rest -> exists rs', rs = (i, r) :: rs'.
Proof.
  destruct rs as [|[i0 r0] rs']; simpl; [discriminate|].
  intros H. injection H as -> -> _. eauto.
Qed.

Lemma length_filter_le {A} (f : A -> bool) (l : list A) :
  length (filter f l) <= length l.
Proof.
  induction l as [|x l IH]; simpl; [lia|]. destruct (f x); simpl; lia.
Qed.

(** The first row of the window never yields a return. *)
Lemma monthly_returns_length (data : DataFrame) (date : Timestamp)
  (top : list asset) :
  top <> [] ->
  length (monthly_returns data date top)
  <= pred (length (month_data data date top)).
Proof.
  intros Htop. unfold monthly_returns. rewrite length_map.
  unfold pct_change.
  pose proof (length_ffill (month_data data date top)) as Hlen.
  destruct (ffill (month_data data date top)) as [|[i r] rest] eqn:E;
    [simpl; lia|].
  destruct (ffill_first_row _ _ _ _ E) as [rs' Ers].
  assert (Hr : r <> []).
  { unfold month_data in Ers.
    destruct (filter _ (rows data)) as [|r0 l]; [discriminate|].
    simpl in Ers. injection Ers as _ <- _.
    destruct top; [congruence | discriminate]. }
  unfold dropna_rows. cbn [filter snd].
  assert (Hna : forallb notna (map (fun _ : num => NaN) r) = false)
    by (destruct r; [congruence | reflexivity]).
  rewrite Hna.
  pose proof (length_filter_le (fun r0 : Timestamp * list num =>
                                  forallb notna (snd r0))
                               (pct_from r rest)) as Hle.
  rewrite length_pct_from in Hle. simpl in Hlen. lia.
Qed.

Lemma length_month_data (data : DataFrame) (date : Timestamp)
  (top top' : list asset) :
  length (month_data data date top) = length (month_data data date top').
Proof. unfold month_data. now rewrite !length_map. Qed.

(** X13: a date whose holding window has fewer than two rows is skipped
    (with [N] at least 1): the first row of a window gives no return, so
    a month with a single row has no valid return day. *)
Theorem window_needs_two_rows
  (data momentum : DataFrame) (N : nat) (st : State) (date : Timestamp)
  (top0 : list asset) :
  1 <= N ->
  length (month_data data date top0) < 2 ->
  step data momentum N st date = st.
Proof.
  intros HN Hlen. unfold step.
  destruct (rebalance data momentum N date) as [[top r]|] eqn:E;
    [exfalso | reflexivity].
  destruct (rebalance_selects data momentum N date top r E)
    as [row [Hloc [Htop Hl]]].
  assert (Hne : top <> []) by (destruct top; simpl in Hl; [lia | discriminate]).
  pose proof (monthly_returns_length data date top Hne) as Hmr.
  rewrite (length_month_data data date top top0) in Hmr.
  unfold rebalance in E. rewrite Hloc in E.
  destruct (isnull_all row); [discriminate|].
  rewrite <- Htop in E.
  destruct (length top <? N); [discriminate|].
  destruct (monthly_returns data date top); [discriminate|].
  simpl in Hmr. lia.
Qed.

Lemma window_needs_two_rows_witness :
  defined_scores (momentum Tables.gapped) (mkdate 2020 10 2) = 2
  /\ step Tables.gapped (momentum Tables.gapped) 1 (init (Fin 100000))
          (mkdate 2020 10 2) = init (Fin 100000).
Proof.
  split; [vm_compute; reflexivity|].
  refine (window_needs_two_rows Tables.gapped (momentum Tables.gapped) 1
            (init (Fin 100000)) (mkdate 2020 10 2) [] _ _).
  - lia.
  - vm_compute. lia.
Defined.

(* ================================================================== *)
(** ** The score over positive prices *)

Section Ratios.
Local Open Scope Q_scope.

Lemma ratio_gt_1 (a b : Q) : 0 < b -> b < a -> 1 < a / b.
Proof.
  intros Hb H. apply Qlt_shift_div_l; [assumption | lra].
Qed.

Lemma ratio_lt_1 (a b : Q) : 0 < b -> a < b -> a / b < 1.
Proof.
  intros Hb H. apply Qlt_shift_div_r; [assumption | lra].
Qed.

Lemma ratio_eq_1 (a b : Q) : 0 < b -> b == a -> a / b == 1.
Proof.
  intros Hb H. rewrite <- H. unfold Qdiv. apply Qmult_inv_r.
  intros E. rewrite E in Hb. apply (Qlt_irrefl 0 Hb).
Qed.

Lemma div_positive (a b : Q) : 0 < b -> (Fin a / Fin b)%num = Fin (a / b).
Proof.
  intros Hb. unfold div. rewrite Qzero_false; [reflexivity|].
  intros E. rewrite E in Hb. apply (Qlt_irrefl 0 Hb).
Qed.

Lemma blend_positive (p0 p1 p3 p6 p12 : Q) :
  0 < p1 -> 0 < p3 -> 0 < p6 -> 0 < p12 ->
  blend (Fin p0) (Fin p1) (Fin p3) (Fin p6) (Fin p12)
  = Fin (12 * (p0 / p1 + - (1)) + 4 * (p0 / p3 + - (1))
         + 2 * (p0 / p6 + - (1)) + (p0 / p12 + - (1))).
Proof.
  intros H1 H3 H6 H12. unfold blend.
  rewrite !div_positive by assumption. reflexivity.
Qed.

End Ratios.

(** X14: the sign of the score.  When the price of the row and the four
    reference prices are positive, the score is positive when the price
    of the row is above each reference price, negative when it is below
    each, and zero when it equals each (a flat history). *)
Theorem score_sign (data : DataFrame) (i j : nat) (p0 p1 p3 p6 p12 : Q) :
  i < length (rows data) -> j < length (columns data) ->
  252 <= trailing_observations (col_values data j) i ->
  cell data i j = Fin p0 ->
  cell data (i - 20) j = Fin p1 ->
  cell data (i - 62) j = Fin p3 ->
  cell data (i - 125) j = Fin p6 ->
  cell data (i - 251) j = Fin p12 ->
  (0 < p0 /\ 0 < p1 /\ 0 < p3 /\ 0 < p6 /\ 0 < p12)%Q ->
  ((p1 < p0 /\ p3 < p0 /\ p6 < p0 /\ p12 < p0)%Q ->
   gtb (cell (momentum data) i j) (Fin 0) = true)
  /\ ((p0 < p1 /\ p0 < p3 /\ p0 < p6 /\ p0 < p12)%Q ->
      gtb (Fin 0) (cell (momentum data) i j) = true)
  /\ ((p1 == p0 /\ p3 == p0 /\ p6 == p0 /\ p12 == p0)%Q ->
      num_eqb (cell (momentum data) i j) (Fin 0) = true).
Proof.
  intros Hi Hj Ht E0 E1 E3 E6 E12 [H0 [H1 [H3 [H6 H12]]]].
  rewrite (full_history_score data i j Hi Hj Ht), E0, E1, E3, E6, E12.
  rewrite blend_positive by assumption.
  cbn [gtb num_eqb].
  split; [|split].
  - intros [G1 [G3 [G6 G12]]]. apply Qlt_bool_iff.
    pose proof (ratio_gt_1 p0 p1 H1 G1). pose proof (ratio_gt_1 p0 p3 H3 G3).
    pose proof (ratio_gt_1 p0 p6 H6 G6). pose proof (ratio_gt_1 p0 p12 H12 G12).
    set (r1 := (p0 / p1)%Q) in *. set (r3 := (p0 / p3)%Q) in *.
    set (r6 := (p0 / p6)%Q) in *. set (r12 := (p0 / p12)%Q) in *. lra.
  - intros [G1 [G3 [G6 G12]]]. apply Qlt_bool_iff.
    pose proof (ratio_lt_1 p0 p1 H1 G1). pose proof (ratio_lt_1 p0 p3 H3 G3).
    pose proof (ratio_lt_1 p0 p6 H6 G6). pose proof (ratio_lt_1 p0 p12 H12 G12).
    set (r1 := (p0 / p1)%Q) in *. set (r3 := (p0 / p3)%Q) in *.
    set (r6 := (p0 / p6)%Q) in *. set (r12 := (p0 / p12)%Q) in *. lra.
  - intros [G1 [G3 [G6 G12]]]. apply Qeq_bool_iff.
    pose proof (ratio_eq_1 p0 p1 H1 G1). pose proof (ratio_eq_1 p0 p3 H3 G3).
    pose proof (ratio_eq_1 p0 p6 H6 G6). pose proof (ratio_eq_1 p0 p12 H12 G12).
    set (r1 := (p0 / p1)%Q) in *. set (r3 := (p0 / p3)%Q) in *.
    set (r6 := (p0 / p6)%Q) in *. set (r12 := (p0 / p12)%Q) in *. lra.
Qed.

Lemma score_sign_witness :
  gtb (cell (momentum Tables.ramp) 252 0) (Fin 0) = true.
Proof.
  assert (H1 : 252 < length (rows Tables.ramp)) by (vm_compute; lia).
  assert (H2 : 0 < length (columns Tables.ramp)) by (vm_compute; lia).
  assert (H3 : 252 <= trailing_observations (col_values Tables.ramp 0) 252)
    by (vm_compute; lia).
  refine (proj1 (score_sign Tables.ramp 252 0 253 233 191 128 2 H1 H2 H3
                   _ _ _ _ _ _) _).
  - vm_compute. reflexivity.
  - vm_compute. reflexivity.
  - vm_compute. reflexivity.
  - vm_compute. reflexivity.
  - vm_compute. reflexivity.
  - repeat split; reflexivity.
  - repeat split; reflexivity.
Defined.

(* ================================================================== *)
(** ** Month-to-date figures per asset (lines 156-162) *)

Lemma dict_set_In (d : list (asset * num)) (k a : asset) (v x : num) :
  In (a, x) (dict_set d k v) -> (a = k /\ x = v) \/ In (a, x) d.
Proof.
  induction d as [|[k' v'] d IH]; simpl.
  - intros [H | []]. injection H as <- <-. left. split; reflexivity.
  - destruct (String.eqb k' k) eqn:E; simpl.
    + intros [H | H]; [injection H as <- <-; left; split; reflexivity|].
      right. right. assumption.
    + intros [H | H]; [right; left; assumption|].
      destruct (IH H) as [G | G]; [left; assumption | right; right; assumption].
Qed.

Lemma dict_set_keys (d : list (asset * num)) (k a : asset) (v : num) :
  In a (map fst (dict_set d k v)) <-> a = k \/ In a (map fst d).
Proof.
  induction d as [|[k' v'] d IH]; simpl.
  - split; [intros [H | []]; left; congruence | intros [H | []]; left; congruence].
  - destruct (String.eqb k' k) eqn:E; simpl.
    + apply String.eqb_eq in E. subst k'. split.
      * intros [H | H]; [left; congruence | right; right; assumption].
      * intros [H | [H | H]]; [left; congruence | left; assumption
                              | right; assumption].
    + rewrite IH. tauto.
Qed.

Lemma dict_set_NoDup (d : list (asset * num)) (k : asset) (v : num) :
  NoDup (map fst d) -> NoDup (map fst (dict_set d k v)).
Proof.
  induction d as [|[k' v'] d IH]; simpl; intros H.
  - constructor; [intros [] | constructor].
  - inversion H as [|x l Hnin Hnd]; subst.
    destruct (String.eqb k' k) eqn:E; simpl.
    + apply String.eqb_eq in E. subst k'. constructor; assumption.
    + constructor; [|apply IH; assumption].
      rewrite dict_set_keys. intros [G | G]; [|contradiction].
      apply String.eqb_neq in E. congruence.
Qed.

(** X17: the per-asset table of month-to-date figures has an entry for
    exactly the held assets whose slice of the current month is not
    empty, none twice, and the figure of an asset is 100 times its
    month-to-date return. *)
Theorem mtd_table_entries
  (data : DataFrame) (end_date : Timestamp) (current_portfolio : list asset) :
  let mtd := mtd_asset_returns data end_date current_portfolio in
  NoDup (map fst mtd)
  /\ (forall a, In a (map fst mtd) <->
        In a current_portfolio /\ asset_data data end_date a <> [])
  /\ (forall a v, In (a, v) mtd ->
        v = (asset_mtd_return (asset_data data end_date a) * Fin 100)%num).
Proof.
  intros mtd. unfold mtd, mtd_asset_returns.
  set (f := fun (mtd : list (asset * num)) (a : asset) =>
              match asset_data data end_date a with
              | [] => mtd
              | n :: l =>
                  dict_set mtd a (asset_mtd_return (n :: l) * Fin 100)%num
              end).
  assert (G : forall (l : list asset) (acc : list (asset * num)),
             NoDup (map fst acc) ->
             (forall a v, In (a, v) acc ->
                v = (asset_mtd_return (asset_data data end_date a) * Fin 100)%num) ->
             NoDup (map fst (fold_left f l acc))
             /\ (forall a, In a (map fst (fold_left f l acc)) <->
                   In a (map fst acc)
                   \/ (In a l /\ asset_data data end_date a <> []))
             /\ (forall a v, In (a, v) (fold_left f l acc) ->
                   v = (asset_mtd_return (asset_data data end_date a)
                        * Fin 100)%num)).
  { induction l as [|x l IH]; intros acc Hnd Hval; cbn [fold_left].
    - split; [assumption|]. split; [|assumption].
      intros a. simpl. tauto.
    - assert (Hnd' : NoDup (map fst (f acc x))).
      { unfold f. destruct (asset_data data end_date x); [assumption|].
        apply dict_set_NoDup. assumption. }
      assert (Hval' : forall a v, In (a, v) (f acc x) ->
                v = (asset_mtd_return (asset_data data end_date a) * Fin 100)%num).
      { unfold f. intros a v Hin.
        destruct (asset_data data end_date x) eqn:E; [apply Hval; assumption|].
        apply dict_set_In in Hin. destruct Hin as [[-> ->] | Hin].
        - rewrite E. reflexivity.
        - apply Hval. assumption. }
      destruct (IH (f acc x) Hnd' Hval') as [H1 [H2 H3]].
      split; [assumption|]. split; [|assumption].
      intros a. rewrite H2. unfold f at 1.
      destruct (asset_data data end_date x) eqn:E.
      + simpl. split.
        * intros [H | [H Hne]]; [left; assumption | right; tauto].
        * intros [H | [[-> | H] Hne]]; [left; assumption | congruence
                                       | right; tauto].
      + rewrite dict_set_keys. simpl. split.
        * intros [[-> | H] | [H Hne]];
            [right; split; [left; reflexivity | congruence]
            | left; assumption | right; tauto].
        * intros [H | [[<- | H] Hne]];
            [left; right; assumption | left; left; reflexivity | right; tauto]. }
  destruct (G current_portfolio [] (NoDup_nil _)
              (fun a v (H : In (a, v) []) => match H with end))
    as [H1 [H2 H3]].
  split; [assumption|]. split; [|assumption].
  intros a. rewrite H2. simpl. tauto.
Qed.

(* ================================================================== *)
(** ** A short price table and the initial display *)

(** X19: a price table with fewer than 252 rows (and at least one asset)
    stops the script at the display of line 90: no date has a score for
    every asset, [momentum.dropna()] is empty and its [iloc[0]] raises,
    whatever the number of assets to hold and the capital. *)
Theorem short_table_display_raises
  (downloaded : DataFrame) (N : nat) (initial_capital : num) :
  length (rows downloaded) < 252 -> columns downloaded <> [] ->
  script downloaded N initial_capital = None.
Proof.
  intros Hlen Hcols. unfold script. cbv zeta.
  rewrite (no_start_date_no_display (momentum (fillna_ffill downloaded)));
    [reflexivity|].
  apply start_date_undefined.
  - exact Hcols.
  - apply momentum_rows_well_formed.
  - apply short_table_undefined.
    unfold fillna_ffill. cbn [rows]. rewrite length_ffill. assumption.
Qed.

Lemma short_table_display_raises_witness :
  script Tables.april 2 (Fin 100000) = None.
Proof.
  refine (short_table_display_raises Tables.april 2 (Fin 100000) _ _).
  - vm_compute. lia.
  - discriminate.
Defined.

(* ================================================================== *)
(** ** The whole pipeline: which months can be recorded *)

Lemma momentum_index (data : DataFrame) :
  index (momentum data) = index data.
Proof.
  unfold index, momentum, rolling_apply_df. cbn [rows].
  rewrite map_map. cbn [fst]. apply map_fst_combine_seq.
Qed.

Lemma rebalancing_dates_incl (data momentum : DataFrame) (d : Timestamp) :
  In d (rebalancing_dates data momentum) ->
  In d (resample_M_index (index data)).
Proof.
  unfold rebalancing_dates.
  destruct (momentum_start_date momentum); [|tauto].
  intros H. apply filter_In in H. tauto.
Qed.

(** X20: in a back-test run on the scores and the re-balancing dates
    derived from the price table, every recorded date is both the last
    calendar day of its month and a date of the price table: a month whose
    last calendar day has no row is never recorded. *)
Theorem recorded_dates_are_traded_month_ends
  (data : DataFrame) (N : nat) (initial_capital : num) :
  let momentum := momentum data in
  let final := backtest data momentum N initial_capital
                        (rebalancing_dates data momentum) in
  Forall (fun d => is_month_end d /\ In d (index data))
         (portfolio_dates final).
Proof.
  intros m final. unfold final, backtest. rewrite run_dates. cbn [init app portfolio_dates].
  apply Forall_forall. intros d Hd. apply filter_In in Hd.
  destruct Hd as [Hin Hs]. split.
  - apply rebalancing_dates_incl in Hin.
    destruct (resample_M_index_inv _ _ Hin) as [k ->].
    apply month_end_is_month_end.
  - destruct (succeeds_rebalance data m N d Hs) as [top [r Hr]].
    rewrite <- (momentum_index data).
    apply (rebalance_in_index data m N d top r Hr).
Qed.

(** X21: dates that are skipped do not matter: removing them from the
    sequence of dates gives the same final state. *)
Theorem skipped_dates_can_be_removed
  (data momentum : DataFrame) (N : nat) (initial_capital : num)
  (dates : list Timestamp) :
  backtest data momentum N initial_capital
           (filter (succeeds data momentum N) dates)
  = backtest data momentum N initial_capital dates.
Proof.
  unfold backtest, run. generalize (init initial_capital).
  induction dates as [|d ds IH]; intros st; cbn [filter fold_left];
    [reflexivity|].
  destruct (succeeds data momentum N d) eqn:Hs.
  - cbn [fold_left]. apply IH.
  - assert (E : step data momentum N st d = st).
    { unfold succeeds in Hs. unfold step.
      destruct (rebalance data momentum N d) as [[top r]|];
        [discriminate | reflexivity]. }
    rewrite E. apply IH.
Qed.
